(** * HubRadar: hub candidate resolution and scoring

    A shallow embedding of the hub engine of
    [src/features/location/services/amap.ts] (the richer of the two hub
    services: name heuristics, train and airport scoring, deduplication and
    best-candidate selection) and of the address-suggestion resolver
    [fetchAddressSuggestions], followed by the properties proved of them.

    Conventions of the embedding.
    - A JavaScript string is the list of its UTF-16 code units.  Literals are
      written as text and decoded by [js].
    - A JavaScript number is an IEEE 754 binary64 value ([spec_float] with
      precision 53); fractional arithmetic ([/ 11], [* 4.2], the composite
      score, the distance penalty) is carried out on binary64 values with the
      operations of [SpecFloat].  Numbers that only ever hold whole values
      (scores, line counts, distances in whole metres as [calcDistanceMeters]
      rounds them) are integers of [Z].
    - [null] and [undefined] are [None].
    - A [Map] is an association list in insertion order, which is the order
      [Map.prototype.values] yields.
    - [Array.prototype.sort] is a stable sort; with a comparator that is a
      total preorder its result is the one of a stable insertion sort. *)

From Stdlib Require Import String Ascii.
From Stdlib Require Import ZArith NArith List Bool Lia QArith Qabs.
From Stdlib Require Import Permutation Sorted.
From Stdlib Require Import Floats.SpecFloat.
Import ListNotations.

Local Open Scope Z_scope.

(* ================================================================== *)
(** * JavaScript strings *)
(* ================================================================== *)

Module JsString.

(** A string value: its UTF-16 code units. *)
Definition jsstring := list N.

(** Decoding of the UTF-8 bytes of a literal into UTF-16 code units. *)
Fixpoint utf16_of_utf8 (bs : list N) : jsstring :=
  match bs with
  | [] => []
  | b0 :: t0 =>
    if (b0 <? 128)%N then b0 :: utf16_of_utf8 t0
    else
      match t0 with
      | [] => []
      | b1 :: t1 =>
        if (b0 <? 224)%N then
          ((b0 mod 32) * 64 + b1 mod 64)%N :: utf16_of_utf8 t1
        else
          match t1 with
          | [] => []
          | b2 :: t2 =>
            if (b0 <? 240)%N then
              ((b0 mod 16) * 4096 + (b1 mod 64) * 64 + b2 mod 64)%N
                :: utf16_of_utf8 t2
            else
              match t2 with
              | [] => []
              | b3 :: t3 =>
                let cp := ((b0 mod 8) * 262144 + (b1 mod 64) * 4096
                           + (b2 mod 64) * 64 + b3 mod 64)%N in
                let v := (cp - 65536)%N in
                (55296 + v / 1024)%N :: (56320 + v mod 1024)%N
                  :: utf16_of_utf8 t3
              end
          end
      end
  end.

Definition js (s : string) : jsstring :=
  utf16_of_utf8 (map N_of_ascii (list_ascii_of_string s)).

Fixpoint eqb (a b : jsstring) : bool :=
  match a, b with
  | [], [] => true
  | x :: a', y :: b' => (x =? y)%N && eqb a' b'
  | _, _ => false
  end.

(** [s.startsWith(p)] *)
Fixpoint startsWith (p s : jsstring) : bool :=
  match p, s with
  | [], _ => true
  | _ :: _, [] => false
  | x :: p', y :: s' => (x =? y)%N && startsWith p' s'
  end.

Fixpoint indexOf_from (needle s : jsstring) (i : Z) : Z :=
  if startsWith needle s then i
  else match s with
       | [] => -1
       | _ :: s' => indexOf_from needle s' (i + 1)
       end.

(** [s.indexOf(needle)]: the first index at which [needle] occurs, or -1. *)
Definition indexOf (needle s : jsstring) : Z := indexOf_from needle s 0.

(** [s.includes(needle)] *)
Definition includes (needle s : jsstring) : bool := 0 <=? indexOf needle s.

(** [s.slice(0, n)] for [0 <= n]. *)
Definition slice0 (n : Z) (s : jsstring) : jsstring := firstn (Z.to_nat n) s.

(** WhiteSpace and LineTerminator code units: the class [\s] of a regular
    expression, and what [trim] strips. *)
Definition isLineTerminator (c : N) : bool :=
  ((c =? 10) || (c =? 13) || (c =? 8232) || (c =? 8233))%N.

Definition isSpace (c : N) : bool :=
  ((c =? 9) || (c =? 10) || (c =? 11) || (c =? 12) || (c =? 13) || (c =? 32)
   || (c =? 160) || (c =? 5760) || ((8192 <=? c) && (c <=? 8202))
   || (c =? 8232) || (c =? 8233) || (c =? 8239) || (c =? 8287)
   || (c =? 12288) || (c =? 65279))%N.

Fixpoint trimStart (s : jsstring) : jsstring :=
  match s with
  | c :: s' => if isSpace c then trimStart s' else s
  | [] => []
  end.

Definition trimEnd (s : jsstring) : jsstring := rev (trimStart (rev s)).

(** [s.trim()] *)
Definition trim (s : jsstring) : jsstring := trimEnd (trimStart s).

(** Decimal digits of a natural number, as [String(n)] writes them. *)
Fixpoint digits_of_uint (d : Decimal.uint) : jsstring :=
  match d with
  | Decimal.Nil => []
  | Decimal.D0 d' => 48%N :: digits_of_uint d'
  | Decimal.D1 d' => 49%N :: digits_of_uint d'
  | Decimal.D2 d' => 50%N :: digits_of_uint d'
  | Decimal.D3 d' => 51%N :: digits_of_uint d'
  | Decimal.D4 d' => 52%N :: digits_of_uint d'
  | Decimal.D5 d' => 53%N :: digits_of_uint d'
  | Decimal.D6 d' => 54%N :: digits_of_uint d'
  | Decimal.D7 d' => 55%N :: digits_of_uint d'
  | Decimal.D8 d' => 56%N :: digits_of_uint d'
  | Decimal.D9 d' => 57%N :: digits_of_uint d'
  end.

Definition digitsN (n : N) : jsstring := digits_of_uint (N.to_uint n).

(** [String(z)] for a whole number [z]. *)
Definition ofInt (z : Z) : jsstring :=
  match z with
  | Zneg p => 45%N :: digitsN (Npos p)
  | _ => digitsN (Z.to_N z)
  end.

End JsString.

Import JsString.


(* ================================================================== *)
(** * Regular expressions *)
(* ================================================================== *)

Module Regex.

(** The fragment of the RegExp syntax the sources use: character classes,
    sequence, alternation and repetition.  Anchors are not part of a
    pattern: each use below says whether the pattern is searched for
    ([test]), tied to the end ([testAtEnd]) or tied to both ends
    ([testWhole]). *)
Inductive regex : Type :=
| Void                          (* matches nothing *)
| Eps                           (* the empty string *)
| Cls (p : N -> bool)           (* one code unit of a class *)
| Seq (r1 r2 : regex)
| Alt (r1 r2 : regex)
| Star (r : regex).

Definition Chr (c : N) : regex := Cls (N.eqb c).
(** [[lo-hi]] *)
Definition Rng (lo hi : N) : regex := Cls (fun c => (lo <=? c)%N && (c <=? hi)%N).
(** [[abc]]: one of the code units of [s]. *)
Definition OneOf (s : jsstring) : regex := Cls (fun c => existsb (N.eqb c) s).
(** [.]: anything but a line terminator. *)
Definition Dot : regex := Cls (fun c => negb (isLineTerminator c)).
Definition Any : regex := Cls (fun _ => true).
(** The literal text [s]. *)
Definition Lit (s : jsstring) : regex := fold_right (fun c r => Seq (Chr c) r) Eps s.
(** [(a|b|...)] over literal texts. *)
Definition Words (ws : list jsstring) : regex :=
  fold_right (fun w r => Alt (Lit w) r) Void ws.
(** [r?], [r+], [r{n}], [r{0,n}], [r{lo,hi}] *)
Definition Opt (r : regex) : regex := Alt r Eps.
Definition Plus (r : regex) : regex := Seq r (Star r).
Fixpoint Times (n : nat) (r : regex) : regex :=
  match n with O => Eps | S n' => Seq r (Times n' r) end.
Fixpoint UpTo (n : nat) (r : regex) : regex :=
  match n with O => Eps | S n' => Opt (Seq r (UpTo n' r)) end.
Definition Between (lo hi : nat) (r : regex) : regex :=
  Seq (Times lo r) (UpTo (hi - lo) r).

Fixpoint nullable (r : regex) : bool :=
  match r with
  | Void => false
  | Eps => true
  | Cls _ => false
  | Seq r1 r2 => nullable r1 && nullable r2
  | Alt r1 r2 => nullable r1 || nullable r2
  | Star _ => true
  end.

Definition seq' (r1 r2 : regex) : regex :=
  match r1, r2 with
  | Void, _ => Void
  | _, Void => Void
  | Eps, _ => r2
  | _, _ => Seq r1 r2
  end.

Definition alt' (r1 r2 : regex) : regex :=
  match r1, r2 with
  | Void, _ => r2
  | _, Void => r1
  | _, _ => Alt r1 r2
  end.

(** The derivative of [r] by the code unit [c]: what may follow [c]. *)
Fixpoint deriv (c : N) (r : regex) : regex :=
  match r with
  | Void => Void
  | Eps => Void
  | Cls p => if p c then Eps else Void
  | Seq r1 r2 =>
    if nullable r1 then alt' (seq' (deriv c r1) r2) (deriv c r2)
    else seq' (deriv c r1) r2
  | Alt r1 r2 => alt' (deriv c r1) (deriv c r2)
  | Star r1 => seq' (deriv c r1) (Star r1)
  end.

(** The whole of [s] is in the language of [r]. *)
Fixpoint matches (r : regex) (s : jsstring) : bool :=
  match s with
  | [] => nullable r
  | c :: s' => matches (deriv c r) s'
  end.

(** [/^r$/.test(s)] *)
Definition testWhole (r : regex) (s : jsstring) : bool := matches r s.
(** [/r$/.test(s)] *)
Definition testAtEnd (r : regex) (s : jsstring) : bool := matches (Seq (Star Any) r) s.
(** [/r/.test(s)] *)
Definition test (r : regex) (s : jsstring) : bool :=
  matches (Seq (Star Any) (Seq r (Star Any))) s.

(** The leftmost position of [s] from which the rest of [s] satisfies [p]:
    where a regular expression search, which tries the start positions from
    left to right, finds its match. *)
Fixpoint searchFrom (p : jsstring -> bool) (s : jsstring) (i : nat) : option nat :=
  if p s then Some i
  else match s with
       | [] => None
       | _ :: s' => searchFrom p s' (S i)
       end.

(** [s.replace(/r$/g, '')]: the leftmost suffix of [s] in the language of
    [r] is cut off.  (After that match the search resumes at the end of the
    string, where a pattern that matches no empty string finds nothing.) *)
Definition cutMatchAtEnd (r : regex) (s : jsstring) : jsstring :=
  match searchFrom (matches r) s 0 with
  | Some i => firstn i s
  | None => s
  end.

(** [s.replace(/r.*/g, '')] for a string [s] without line terminators:
    [r.*] matches from the leftmost position at which [r] matches up to the
    end of [s], and all of that is cut off. *)
Definition cutFromMatch (r : regex) (s : jsstring) : jsstring :=
  match searchFrom (matches (Seq r (Star Dot))) s 0 with
  | Some i => firstn i s
  | None => s
  end.

End Regex.

Import Regex.

(* ================================================================== *)
(** * JavaScript numbers *)
(* ================================================================== *)

Module JsNumber.

(** A number value: an IEEE 754 binary64 value. *)
Definition number := spec_float.
Definition prec : Z := 53.
Definition emax : Z := 1024.

Definition fadd : number -> number -> number := SFadd prec emax.
Definition fmul : number -> number -> number := SFmul prec emax.
Definition fdiv : number -> number -> number := SFdiv prec emax.

(** The number value of a whole number (exact below 2^53). *)
Definition ofZ (z : Z) : number := binary_normalize prec emax z 0 false.

Definition NaN : number := S754_nan.

(** [Number.isNaN(x)] *)
Definition isNaN (x : number) : bool :=
  match x with S754_nan => true | _ => false end.

(** [x < 0] *)
Definition isNegative (x : number) : bool :=
  match x with
  | S754_finite true _ _ => true
  | S754_infinity true => true
  | _ => false
  end.

(** [Math.round(x)] for a finite [x]: the whole number nearest to the exact
    value of [x], a tie going up.  (The infinities and NaN, which
    [Math.round] returns unchanged and which have no whole value, are sent
    to 0; no use below reaches them with a number in the range of
    binary64.) *)
Definition Math_round (x : number) : Z :=
  match x with
  | S754_finite s m e =>
    let v := if s then Zneg m else Zpos m in
    if 0 <=? e then v * 2 ^ e
    else (2 * v + 2 ^ (- e)) / 2 ^ (1 - e)
  | _ => 0
  end.

(** The integer [n] of [toFixed]: [n / 10^f] is as close as possible to the
    exact value of [|x|], the larger [n] on a tie. *)
Definition scaledRound (f : nat) (x : number) : Z :=
  match x with
  | S754_finite _ m e =>
    if 0 <=? e then Zpos m * 2 ^ e * 10 ^ Z.of_nat f
    else (2 * Zpos m * 10 ^ Z.of_nat f + 2 ^ (- e)) / 2 ^ (1 - e)
  | _ => 0
  end.

(** The decimal that [x.toFixed(f)] writes, as a rational, for a finite
    [x].  [Number(x.toFixed(f))] is the binary64 value nearest to it; on
    decimals of [f] places of this size that conversion is one to one and
    keeps the order, so the rational stands for the number. *)
Definition toFixedValue (f : nat) (x : number) : Q :=
  let n := scaledRound f x in
  Qmake (if isNegative x then - n else n) (Z.to_pos (10 ^ Z.of_nat f)).

Fixpoint zeros (n : nat) : jsstring :=
  match n with O => [] | S n' => 48%N :: zeros n' end.

(** [x.toFixed(f)] in decimal notation.  (For [|x| >= 10^21] JavaScript
    switches to the exponent notation of [String(x)]; the coordinates this
    is applied to are degrees.) *)
Definition toFixed (f : nat) (x : number) : jsstring :=
  match x with
  | S754_nan => js "NaN"
  | S754_infinity s => if s then js "-Infinity" else js "Infinity"
  | _ =>
    let ds := digitsN (Z.to_N (scaledRound f x)) in
    let ds := zeros (S f - length ds) ++ ds in
    let k := (length ds - f)%nat in
    (if isNegative x then [45%N] else [])
      ++ firstn k ds
      ++ (match f with O => [] | _ => 46%N :: skipn k ds end)
  end.

(** ** [Number(string)] *)

Definition digitValue (radix c : N) : option N :=
  let v := if ((48 <=? c) && (c <=? 57))%N then Some (c - 48)%N
           else if ((97 <=? c) && (c <=? 122))%N then Some (c - 87)%N
           else if ((65 <=? c) && (c <=? 90))%N then Some (c - 55)%N
           else None in
  match v with
  | Some d => if (d <? radix)%N then Some d else None
  | None => None
  end.

(** Reads the longest run of digits at the head of [s]: their value, their
    count and the rest of [s]. *)
Fixpoint readDigits (radix : N) (s : jsstring) (acc : N) (cnt : nat)
  : N * nat * jsstring :=
  match s with
  | c :: s' =>
    match digitValue radix c with
    | Some d => readDigits radix s' (acc * radix + d)%N (S cnt)
    | None => (acc, cnt, s)
    end
  | [] => (acc, cnt, [])
  end.

(** The binary64 value nearest to [m * 10^e10] (ties to even), signed. *)
Definition ofDecimal (neg : bool) (m : N) (e10 : Z) : number :=
  match m with
  | N0 => S754_zero neg
  | Npos p =>
    if 0 <=? e10 then binary_round prec emax neg (Z.to_pos (Zpos p * 10 ^ e10)) 0
    else fdiv (S754_finite neg p 0) (S754_finite false (Z.to_pos (10 ^ (- e10))) 0)
  end.

Definition radixPrefix (s : jsstring) : option (N * jsstring) :=
  match s with
  | 48%N :: c :: rest =>
    if ((c =? 120) || (c =? 88))%N then Some (16%N, rest)
    else if ((c =? 111) || (c =? 79))%N then Some (8%N, rest)
    else if ((c =? 98) || (c =? 66))%N then Some (2%N, rest)
    else None
  | _ => None
  end.

Definition readSign (s : jsstring) : bool * jsstring :=
  match s with
  | 43%N :: u => (false, u)
  | 45%N :: u => (true, u)
  | _ => (false, s)
  end.

Definition isEmpty (s : jsstring) : bool :=
  match s with [] => true | _ => false end.

(** [Number(s)] for a string [s] (StringToNumber): white space is trimmed,
    the empty string is 0, then a signed decimal literal with optional
    fraction and exponent, [Infinity], or an unsigned hexadecimal, octal or
    binary literal; anything else is NaN. *)
Definition Number (s : jsstring) : number :=
  let t := trim s in
  if isEmpty t then S754_zero false
  else
    match radixPrefix t with
    | Some (radix, rest) =>
      let '(v, cnt, rest') := readDigits radix rest 0%N 0%nat in
      if (cnt =? 0)%nat || negb (isEmpty rest') then NaN else ofZ (Z.of_N v)
    | None =>
      let '(neg, u) := readSign t in
      if JsString.eqb u (js "Infinity") then S754_infinity neg
      else
        let '(a, na, r1) := readDigits 10 u 0%N 0%nat in
        let '(b, nb, r2) :=
          match r1 with
          | 46%N :: r => readDigits 10 r 0%N 0%nat
          | _ => (0%N, 0%nat, r1)
          end in
        let m := (a * 10 ^ N.of_nat nb + b)%N in
        if (na + nb =? 0)%nat then NaN
        else
          match r2 with
          | [] => ofDecimal neg m (- Z.of_nat nb)
          | c :: r3 =>
            if ((c =? 101) || (c =? 69))%N then
              let '(eneg, r4) := readSign r3 in
              let '(x, nx, r5) := readDigits 10 r4 0%N 0%nat in
              if (nx =? 0)%nat || negb (isEmpty r5) then NaN
              else ofDecimal neg m
                     ((if eneg then - Z.of_N x else Z.of_N x) - Z.of_nat nb)
            else NaN
          end
    end.

(** A numeric literal of the source text. *)
Definition lit (s : string) : number := Number (js s).

End JsNumber.

Import JsNumber.

(* ================================================================== *)
(** * Data model *)
(* ================================================================== *)

Inductive HubKind : Type := subway | train | highspeed | airport.

Module HubCandidate.
Record t : Type := {
  name : jsstring;
  address : jsstring;
  distanceMeters : option Z;
  score : Q;
  reasonTags : list jsstring
}.
End HubCandidate.

Module TrainStationProfile.
(** [compositeScore] is the decimal with one place that [toFixed(1)]
    writes (see [toFixedValue]). *)
Record t : Type := {
  capacityScore : Z;
  lineCountScore : Z;
  lineCountEstimate : Z;
  highSpeedScore : Z;
  hasHighSpeedSignal : bool;
  compositeScore : Q;
  reasonTags : list jsstring
}.
End TrainStationProfile.

Module HubResult.
Record t : Type := {
  kind : HubKind;
  kindLabel : jsstring;
  name : jsstring;
  address : jsstring;
  distanceMeters : option Z;
  latitude : number;
  longitude : number;
  highSpeedQueryHit : option bool;
  trainProfile : option TrainStationProfile.t;
  topCandidates : option (list HubCandidate.t)
}.

(** [{ ...r, highSpeedQueryHit: h }] *)
Definition withHighSpeedQueryHit (r : t) (h : bool) : t :=
  {| kind := kind r; kindLabel := kindLabel r; name := name r;
     address := address r; distanceMeters := distanceMeters r;
     latitude := latitude r; longitude := longitude r;
     highSpeedQueryHit := Some h;
     trainProfile := trainProfile r; topCandidates := topCandidates r |}.

(** [{ ...r, trainProfile: p }] *)
Definition withTrainProfile (r : t) (p : TrainStationProfile.t) : t :=
  {| kind := kind r; kindLabel := kindLabel r; name := name r;
     address := address r; distanceMeters := distanceMeters r;
     latitude := latitude r; longitude := longitude r;
     highSpeedQueryHit := highSpeedQueryHit r;
     trainProfile := Some p; topCandidates := topCandidates r |}.

(** [{ ...r, topCandidates: cs }] *)
Definition withTopCandidates (r : t) (cs : list HubCandidate.t) : t :=
  {| kind := kind r; kindLabel := kindLabel r; name := name r;
     address := address r; distanceMeters := distanceMeters r;
     latitude := latitude r; longitude := longitude r;
     highSpeedQueryHit := highSpeedQueryHit r;
     trainProfile := trainProfile r; topCandidates := Some cs |}.
End HubResult.

(** The truth value of an optional boolean ([undefined] is falsy). *)
Definition truthy (b : option bool) : bool :=
  match b with Some true => true | _ => false end.

(** The truth value of a string (the empty string is falsy). *)
Definition nonEmpty (s : jsstring) : bool :=
  match s with [] => false | _ => true end.

(** * Maps in insertion order *)

Section JsMap.
Context {V : Type}.

(** [m.get(key)] *)
Fixpoint mapGet (key : jsstring) (m : list (jsstring * V)) : option V :=
  match m with
  | [] => None
  | (k, v) :: m' => if JsString.eqb k key then Some v else mapGet key m'
  end.

(** [m.set(key, v)]: a present key keeps its place, a new one goes last. *)
Fixpoint mapSet (key : jsstring) (v : V) (m : list (jsstring * V))
  : list (jsstring * V) :=
  match m with
  | [] => [(key, v)]
  | (k, w) :: m' =>
    if JsString.eqb k key then (k, v) :: m' else (k, w) :: mapSet key v m'
  end.

(** [Array.from(m.values())] *)
Definition mapValues (m : list (jsstring * V)) : list V := map snd m.
End JsMap.

(** * Sorting *)

Section Sort.
Context {A : Type}.
(** The comparator's sign: [Lt] for a negative result (the first argument
    goes first), [Gt] for a positive one, [Eq] for 0. *)
Variable cmp : A -> A -> comparison.

Fixpoint insertBy (x : A) (l : list A) : list A :=
  match l with
  | [] => [x]
  | y :: l' =>
    match cmp x y with
    | Gt => y :: insertBy x l'
    | _ => x :: l
    end
  end.

(** [l.sort(cmp)]: stable. *)
Fixpoint sortBy (l : list A) : list A :=
  match l with
  | [] => []
  | x :: l' => insertBy x (sortBy l')
  end.

(** [a] may stand before [b]: the comparator does not put [b] first. *)
Definition before (a b : A) : Prop := cmp a b <> Gt.
End Sort.

(* ================================================================== *)
(** * The map provider *)
(* ================================================================== *)

(** What the services see of the provider: the result of each [fetch].
    The request (URL and query) and the throttle before it, which only
    delays the call, do not show in what a service returns. *)
Module Provider.

(** A point of interest or an input tip of a response body: the union of
    the optional fields the services read ([Poi], [RawPoi], [RawTip]). *)
Record Place : Type := {
  id : option jsstring;
  name : option jsstring;
  address : option jsstring;
  distance : option jsstring;
  location : option jsstring;
  district : option jsstring;
  pname : option jsstring;
  cityname : option jsstring;
  adname : option jsstring
}.

(** The JSON body of a response. *)
Record Body : Type := {
  status : option jsstring;
  infocode : option jsstring;
  info : option jsstring;
  pois : option (list Place);
  tips : option (list Place)
}.

(** The result of [await fetch(url)]: the promise rejects (no connection),
    or resolves to a response with its [ok] flag, its HTTP status and its
    body ([None] when the body is no JSON, so that [response.json()]
    rejects). *)
Inductive FetchResult : Type :=
| Rejected
| Response (ok : bool) (httpStatus : Z) (body : option Body).

(** What a call throws: an [AmapApiError] with its message and optional
    code, or some other error (a network or syntax error). *)
Inductive Thrown : Type :=
| AmapApiError (message : jsstring) (code : option jsstring)
| OtherError.

(** The outcome of an async call: its promise resolves or rejects. *)
Inductive Outcome (A : Type) : Type :=
| Returned (a : A)
| Threw (e : Thrown).
Arguments Returned {A} a.
Arguments Threw {A} e.

(** [x ?? d] *)
Definition orElse {A : Type} (x : option A) (d : A) : A :=
  match x with Some a => a | None => d end.

(** [status === '1'] *)
Definition statusIsOne (b : Body) : bool :=
  match status b with Some s => JsString.eqb s (js "1") | None => false end.

(** [`高德请求失败: ${response.status}`] *)
Definition requestFailedMessage (httpStatus : Z) : jsstring :=
  js "高德请求失败: " ++ ofInt httpStatus.

(** [`高德接口错误: ${json.info ?? 'unknown'} (${json.infocode ?? 'n/a'})`] *)
Definition apiErrorMessage (b : Body) : jsstring :=
  js "高德接口错误: " ++ orElse (info b) (js "unknown") ++ js " ("
    ++ orElse (infocode b) (js "n/a") ++ js ")".

End Provider.

(* ================================================================== *)
(** * The hub engine ([features/location/services/amap.ts]) *)
(* ================================================================== *)

Module Amap.
Import Provider.

Definition MAX_SAFE_INTEGER : Z := 9007199254740991.

Definition clamp (value min max : Z) : Z := Z.min max (Z.max min value).

(** [name.replace(/\s+/g, '').trim()] *)
Definition normalizeStationName (name : jsstring) : jsstring :=
  trim (filter (fun c => negb (isSpace c)) name).

Definition citySuffixes : list jsstring :=
  [js "特别行政区"; js "自治州"; js "自治县"; js "地区"; js "盟"; js "市";
   js "州"; js "区"; js "县"].

Definition normalizeCityToken (cityName : option jsstring) : jsstring :=
  match cityName with
  | None => []
  | Some cityName =>
    if negb (nonEmpty cityName) then []
    else trim (cutMatchAtEnd (Words citySuffixes) cityName)
  end.

(** [s.split(',')] *)
Fixpoint split (sep : N) (s : jsstring) : list jsstring :=
  match s with
  | [] => [[]]
  | c :: s' =>
    if (c =? sep)%N then [] :: split sep s'
    else match split sep s' with
         | t :: ts => (c :: t) :: ts
         | [] => [[c]]
         end
  end.

(** [Number(x)] of an array element that may be missing
    ([Number(undefined)] is NaN). *)
Definition NumberOf (x : option jsstring) : number :=
  match x with Some s => Number s | None => NaN end.

Record LngLat : Type := { longitude : number; latitude : number }.

Definition parseLocation (location : jsstring) : option LngLat :=
  let parts := split 44 location in
  let lng := nth_error parts 0 in
  let lat := nth_error parts 1 in
  let longitude := NumberOf lng in
  let latitude := NumberOf lat in
  if isNaN longitude || isNaN latitude then None
  else Some {| longitude := longitude; latitude := latitude |}.

Definition directions : list jsstring := [js "东"; js "西"; js "南"; js "北"].

(** [/(县|镇|乡|村|新区|开发区|工业园|郊|街道|社区)/.test(name)] *)
Definition isCountyLevelName (name : jsstring) : bool :=
  test (Words [js "县"; js "镇"; js "乡"; js "村"; js "新区"; js "开发区";
               js "工业园"; js "郊"; js "街道"; js "社区"]) name.

(** [/(东|西|南|北)站$/.test(name)] *)
Definition hasDirectionalStationSuffix (name : jsstring) : bool :=
  testAtEnd (Seq (Words directions) (Lit (js "站"))) name.

(** [/^[\u4e00-\u9fa5]{2,8}(东|西|南|北)?站$/.test(name)]; the class is
    the range of code units 0x4E00 to 0x9FA5. *)
Definition isCityMainStyleName (name : jsstring) : bool :=
  testWhole (Seq (Between 2 8 (Rng 19968 40869))
                 (Seq (Opt (Words directions)) (Lit (js "站")))) name.

(** [/(高铁|动车|城际)/.test(name) || hasDirectionalStationSuffix(name)] *)
Definition hasHighSpeedSignal (name : jsstring) : bool :=
  test (Words [js "高铁"; js "动车"; js "城际"]) name
  || hasDirectionalStationSuffix name.

Definition nationalHubCities : list jsstring :=
  [js "北京"; js "上海"; js "广州"; js "深圳"; js "成都"; js "重庆";
   js "西安"; js "武汉"; js "杭州"; js "南京"; js "天津"; js "郑州";
   js "长沙"; js "青岛"; js "昆明"; js "沈阳"; js "厦门"; js "福州";
   js "合肥"; js "南昌"; js "贵阳"; js "兰州"; js "乌鲁木齐"].

(** [/(北京|...|乌鲁木齐)(东|西|南|北)?站/.test(name)] *)
Definition isNationalHubStyleName (name : jsstring) : bool :=
  test (Seq (Words nationalHubCities)
            (Seq (Opt (Words directions)) (Lit (js "站")))) name.

Definition buildTrainStationProfile (name : jsstring) (cityName : option jsstring)
  : TrainStationProfile.t :=
  let normalizedName := normalizeStationName name in
  let cityToken := normalizeCityToken cityName in
  let cityMatch :=
    if nonEmpty cityToken then includes cityToken normalizedName else false in
  let countyLevel := isCountyLevelName normalizedName in
  let cityMainStyle := isCityMainStyleName normalizedName in
  let directionalSuffix := hasDirectionalStationSuffix normalizedName in
  let highSpeed := hasHighSpeedSignal normalizedName in
  let nationalHubStyle := isNationalHubStyleName normalizedName in

  let capacityScore := 20 in
  let capacityScore := if cityMatch then capacityScore + 38 else capacityScore in
  let capacityScore := if cityMainStyle then capacityScore + 20 else capacityScore in
  let capacityScore := if directionalSuffix then capacityScore + 12 else capacityScore in
  let capacityScore := if nationalHubStyle then capacityScore + 12 else capacityScore in
  let capacityScore := if highSpeed then capacityScore + 10 else capacityScore in
  let capacityScore := if countyLevel then capacityScore - 65 else capacityScore in
  let capacityScore := clamp (Math_round (ofZ capacityScore)) 0 100 in

  let rawLineEstimate :=
    Math_round (fdiv (ofZ capacityScore) (ofZ 11))
    + (if cityMatch then 4 else 0)
    + (if highSpeed then 3 else 0)
    + (if cityMainStyle then 2 else 0)
    - (if countyLevel then 2 else 0) in
  let lineCountEstimate := clamp rawLineEstimate 1 24 in
  let lineCountScore :=
    clamp (Math_round (fmul (ofZ lineCountEstimate) (lit "4.2"))) 0 100 in

  let highSpeedScore := if highSpeed then 100 else 30 in
  let compositeScore :=
    toFixedValue 1
      (fadd (fadd (fmul (ofZ capacityScore) (lit "0.45"))
                  (fmul (ofZ lineCountScore) (lit "0.35")))
            (fmul (ofZ highSpeedScore) (lit "0.2"))) in

  let reasonTags := [] in
  let reasonTags := if cityMatch then reasonTags ++ [js "同城主站信号"] else reasonTags in
  let reasonTags := if cityMainStyle then reasonTags ++ [js "主站命名"] else reasonTags in
  let reasonTags := if highSpeed then reasonTags ++ [js "高铁信号"] else reasonTags in
  let reasonTags := if nationalHubStyle then reasonTags ++ [js "全国级枢纽命名"] else reasonTags in
  let reasonTags := if countyLevel then reasonTags ++ [js "县镇级命名"] else reasonTags in

  {| TrainStationProfile.capacityScore := capacityScore;
     TrainStationProfile.lineCountScore := lineCountScore;
     TrainStationProfile.lineCountEstimate := lineCountEstimate;
     TrainStationProfile.highSpeedScore := highSpeedScore;
     TrainStationProfile.hasHighSpeedSignal := highSpeed;
     TrainStationProfile.compositeScore := compositeScore;
     TrainStationProfile.reasonTags := reasonTags |}.

Definition terminalWords : list jsstring :=
  [js "航站楼"; js "候机楼"; js "卫星厅"].

(** [([A-Z]?\d+|[一二三四五六七八九十1-9]号?)(航站楼|候机楼|卫星厅)] *)
Definition numberedTerminal : regex :=
  Seq (Alt (Seq (Opt (Rng 65 90)) (Plus (Rng 48 57)))
           (Seq (OneOf (js "一二三四五六七八九十123456789")) (Opt (Lit (js "号")))))
      (Words terminalWords).

Definition canonicalAirportName (name : jsstring) : jsstring :=
  let normalizedName := normalizeStationName name in
  let airportIndex := indexOf (js "机场") normalizedName in
  if 0 <=? airportIndex then slice0 (airportIndex + 2) normalizedName
  else
    trim (cutFromMatch (Words terminalWords)
            (cutFromMatch numberedTerminal normalizedName)).

Record AirportScore : Type := { score : Z; reasonTags : list jsstring }.

Definition buildAirportScore (name : jsstring) (cityName : option jsstring)
           (distanceMeters : option Z) : AirportScore :=
  let normalizedName := normalizeStationName name in
  let cityToken := normalizeCityToken cityName in
  let cityMatch :=
    if nonEmpty cityToken then includes cityToken normalizedName else false in
  let isInternational := includes (js "国际机场") normalizedName in
  let isCommercialAirport := includes (js "机场") normalizedName in
  let isSmallAirport :=
    test (Words [js "通用"; js "直升机"; js "训练"; js "校飞"; js "试飞";
                 js "观光"; js "航校"; js "产业园"; js "航空港园区"; js "机库";
                 js "营地"]) normalizedName in

  let score := 30 in
  let score := if isInternational then score + 45 else score in
  let score := if isCommercialAirport then score + 18 else score in
  let score := if cityMatch then score + 18 else score in
  let score := if negb cityMatch && nonEmpty cityToken then score - 18 else score in
  let score := if isSmallAirport then score - 70 else score in
  let distancePenalty :=
    Z.min 85
      (Math_round
         (fmul (fdiv (ofZ (match distanceMeters with Some d => d | None => 120000 end))
                     (ofZ 1000))
               (lit "0.65"))) in
  let score := score - distancePenalty in

  let reasonTags := [] in
  let reasonTags := if isInternational then reasonTags ++ [js "国际机场"] else reasonTags in
  let reasonTags :=
    if cityMatch then reasonTags ++ [js "同城机场"]
    else if nonEmpty cityToken then reasonTags ++ [js "非同城机场"]
    else reasonTags in
  let reasonTags := if isSmallAirport then reasonTags ++ [js "疑似通用机场"] else reasonTags in
  let reasonTags := reasonTags ++ [js "距离扣分" ++ ofInt distancePenalty] in

  {| score := score; reasonTags := reasonTags |}.

(** The key of [dedupeHubs]:
    [`${item.name}|${item.latitude.toFixed(6)}|${item.longitude.toFixed(6)}`] *)
Definition hubKey (item : HubResult.t) : jsstring :=
  HubResult.name item ++ js "|" ++ toFixed 6 (HubResult.latitude item)
    ++ js "|" ++ toFixed 6 (HubResult.longitude item).

Definition distanceOrMax (d : option Z) : Z :=
  match d with Some d => d | None => MAX_SAFE_INTEGER end.

(** One round of the [forEach] of [dedupeHubs]. *)
Definition dedupeStep (byKey : list (jsstring * HubResult.t)) (item : HubResult.t)
  : list (jsstring * HubResult.t) :=
  let key := hubKey item in
  match mapGet key byKey with
  | None => mapSet key item byKey
  | Some existing =>
    let existingDistance := distanceOrMax (HubResult.distanceMeters existing) in
    let nextDistance := distanceOrMax (HubResult.distanceMeters item) in
    mapSet key
      (HubResult.withHighSpeedQueryHit
         (if nextDistance <? existingDistance then item else existing)
         (truthy (HubResult.highSpeedQueryHit existing)
          || truthy (HubResult.highSpeedQueryHit item)))
      byKey
  end.

Definition dedupeHubs (items : list HubResult.t) : list HubResult.t :=
  mapValues (fold_left dedupeStep items []).

(** An element of [rankedSource]: [{ ...item, trainProfile }], a hub
    together with its profile. *)
Record RankedTrain : Type := {
  rt_item : HubResult.t;
  rt_profile : TrainStationProfile.t
}.

(** The comparator of the sort of [pickBestTrainHub]. *)
Definition trainCompare (a b : RankedTrain) : comparison :=
  let profileA := rt_profile a in
  let profileB := rt_profile b in
  if negb (Qeq_bool (TrainStationProfile.compositeScore profileB)
                    (TrainStationProfile.compositeScore profileA))
  then Qcompare (TrainStationProfile.compositeScore profileB)
                (TrainStationProfile.compositeScore profileA)
  else if negb (TrainStationProfile.lineCountEstimate profileB
                =? TrainStationProfile.lineCountEstimate profileA)
  then Z.compare (TrainStationProfile.lineCountEstimate profileB)
                 (TrainStationProfile.lineCountEstimate profileA)
  else
    let distA := distanceOrMax (HubResult.distanceMeters (rt_item a)) in
    let distB := distanceOrMax (HubResult.distanceMeters (rt_item b)) in
    Z.compare distA distB.

Definition trainCandidate (item : RankedTrain) : HubCandidate.t :=
  {| HubCandidate.name := HubResult.name (rt_item item);
     HubCandidate.address := HubResult.address (rt_item item);
     HubCandidate.distanceMeters := HubResult.distanceMeters (rt_item item);
     HubCandidate.score := TrainStationProfile.compositeScore (rt_profile item);
     HubCandidate.reasonTags := TrainStationProfile.reasonTags (rt_profile item) |}.

(** [working] of [pickBestTrainHub] after the county-level filter and the
    city-name reordering. *)
Definition trainWorking (candidates : list HubResult.t) (cityName : option jsstring)
  : list HubResult.t :=
  let cityToken := normalizeCityToken cityName in
  let working := candidates in
  let nonCounty :=
    filter (fun item => negb (isCountyLevelName (HubResult.name item))) working in
  let working := if (3 <=? length nonCounty)%nat then nonCounty else working in
  if nonEmpty cityToken then
    let cityNamed :=
      filter (fun item =>
                includes cityToken (normalizeStationName (HubResult.name item)))
             working in
    if (2 <=? length cityNamed)%nat then
      let notCityNamed :=
        filter (fun item =>
                  negb (includes cityToken
                          (normalizeStationName (HubResult.name item))))
               working in
      cityNamed ++ notCityNamed
    else working
  else working.

(** [filteredSource] of [pickBestTrainHub]. *)
Definition trainFiltered (candidates : list HubResult.t) (cityName : option jsstring)
           (highSpeedOnly : bool) : list RankedTrain :=
  let rankedSource :=
    map (fun item =>
           let trainProfile :=
             buildTrainStationProfile (HubResult.name item) cityName in
           {| rt_item := item; rt_profile := trainProfile |})
        (trainWorking candidates cityName) in
  if highSpeedOnly then
    filter (fun item =>
              TrainStationProfile.hasHighSpeedSignal (rt_profile item)
              && truthy (HubResult.highSpeedQueryHit (rt_item item)))
           rankedSource
  else rankedSource.

(** [ranked] of [pickBestTrainHub]. *)
Definition trainRanked (candidates : list HubResult.t) (cityName : option jsstring)
           (highSpeedOnly : bool) : list RankedTrain :=
  sortBy trainCompare (trainFiltered candidates cityName highSpeedOnly).

(** [pickBestTrainHub(candidates, cityName, { highSpeedOnly })]; the
    argument [highSpeedOnly] is the truth value of [options?.highSpeedOnly]. *)
Definition pickBestTrainHub (candidates : list HubResult.t)
           (cityName : option jsstring) (highSpeedOnly : bool)
  : option HubResult.t :=
  match candidates with
  | [] => None
  | _ =>
    let filteredSource := trainFiltered candidates cityName highSpeedOnly in
    match filteredSource with
    | [] => None
    | _ =>
      let ranked := sortBy trainCompare filteredSource in
      let topCandidates := map trainCandidate (firstn 3 ranked) in
      match ranked with
      | [] => None
      | primary :: _ =>
        Some (HubResult.withTopCandidates
                (HubResult.withTrainProfile (rt_item primary) (rt_profile primary))
                topCandidates)
      end
    end
  end.

(** The comparator by distance, a missing distance last. *)
Definition distanceCompare (a b : HubResult.t) : comparison :=
  let distA := distanceOrMax (HubResult.distanceMeters a) in
  let distB := distanceOrMax (HubResult.distanceMeters b) in
  Z.compare distA distB.

(** One round of the grouping [forEach] of [pickBestAirportHub]. *)
Definition groupStep (grouped : list (jsstring * list HubResult.t))
           (item : HubResult.t) : list (jsstring * list HubResult.t) :=
  let key := canonicalAirportName (HubResult.name item) in
  let list := match mapGet key grouped with Some l => l | None => [] end in
  mapSet key (list ++ [item]) grouped.

(** [grouped] of [pickBestAirportHub]. *)
Definition airportGroups (candidates : list HubResult.t)
  : list (jsstring * list HubResult.t) :=
  fold_left groupStep candidates [].

(** [[...items].sort(byDistance)[0]]; a group is never empty. *)
Definition nearestOf (items : list HubResult.t) : list HubResult.t :=
  match sortBy distanceCompare items with
  | x :: _ => [x]
  | [] => []
  end.

(** [working] of [pickBestAirportHub]: the nearest member of each group. *)
Definition airportWorking (candidates : list HubResult.t) : list HubResult.t :=
  flat_map nearestOf (mapValues (airportGroups candidates)).

(** A row of [ranked] in [pickBestAirportHub]. *)
Record RankedAirport : Type := {
  ra_item : HubResult.t;
  ra_score : Z;
  ra_reasonTags : list jsstring
}.

Definition airportCompare (a b : RankedAirport) : comparison :=
  if negb (ra_score b =? ra_score a) then Z.compare (ra_score b) (ra_score a)
  else
    let distA := distanceOrMax (HubResult.distanceMeters (ra_item a)) in
    let distB := distanceOrMax (HubResult.distanceMeters (ra_item b)) in
    Z.compare distA distB.

Definition airportCandidate (row : RankedAirport) : HubCandidate.t :=
  {| HubCandidate.name := HubResult.name (ra_item row);
     HubCandidate.address := HubResult.address (ra_item row);
     HubCandidate.distanceMeters := HubResult.distanceMeters (ra_item row);
     HubCandidate.score := inject_Z (ra_score row);
     HubCandidate.reasonTags := ra_reasonTags row |}.

(** [ranked] of [pickBestAirportHub]. *)
Definition airportRanked (candidates : list HubResult.t) (cityName : option jsstring)
  : list RankedAirport :=
  sortBy airportCompare
    (map (fun item =>
            let profile :=
              buildAirportScore (HubResult.name item) cityName
                                (HubResult.distanceMeters item) in
            {| ra_item := item; ra_score := score profile;
               ra_reasonTags := reasonTags profile |})
         (airportWorking candidates)).

Definition pickBestAirportHub (candidates : list HubResult.t)
           (cityName : option jsstring) : option HubResult.t :=
  match candidates with
  | [] => None
  | _ =>
    let ranked := airportRanked candidates cityName in
    let topCandidates := map airportCandidate (firstn 3 ranked) in
    match ranked with
    | [] => None
    | row :: _ => Some (HubResult.withTopCandidates (ra_item row) topCandidates)
    end
  end.

(** [fetchAroundPois(params)], given the result of its [fetch]. *)
Definition fetchAroundPois (response : FetchResult) : Outcome (list Place) :=
  match response with
  | Rejected => Threw OtherError
  | Response ok httpStatus body =>
    if negb ok then Threw (AmapApiError (requestFailedMessage httpStatus) None)
    else
      match body with
      | None => Threw OtherError
      | Some json =>
        if negb (statusIsOne json)
        then Threw (AmapApiError (apiErrorMessage json) (infocode json))
        else Returned (orElse (pois json) [])
      end
  end.

(** A candidate with the given name, distance and query-hit flag; its
    other fields are those of [rest]. *)
Definition candidate (name : jsstring) (distanceMeters : option Z)
           (highSpeedQueryHit : option bool) (rest : HubResult.t) : HubResult.t :=
  {| HubResult.kind := HubResult.kind rest;
     HubResult.kindLabel := HubResult.kindLabel rest;
     HubResult.name := name;
     HubResult.address := HubResult.address rest;
     HubResult.distanceMeters := distanceMeters;
     HubResult.latitude := HubResult.latitude rest;
     HubResult.longitude := HubResult.longitude rest;
     HubResult.highSpeedQueryHit := highSpeedQueryHit;
     HubResult.trainProfile := HubResult.trainProfile rest;
     HubResult.topCandidates := HubResult.topCandidates rest |}.

End Amap.

(* ================================================================== *)
(** * The address-suggestion resolver ([fetchAddressSuggestions]) *)
(* ================================================================== *)

Module InputTips.
Import Provider.

Module AddressSuggestion.
Record t : Type := {
  id : jsstring;
  name : jsstring;
  address : jsstring;
  latitude : number;
  longitude : number
}.
End AddressSuggestion.

(** [/(汉庭|如家|全季|亚朵|锦江|7天|格林豪泰|维也纳|桔子|喆啡|酒店)/] *)
Definition HOTEL_BRAND_REGEX : regex :=
  Words [js "汉庭"; js "如家"; js "全季"; js "亚朵"; js "锦江"; js "7天";
         js "格林豪泰"; js "维也纳"; js "桔子"; js "喆啡"; js "酒店"].

(** [suggestionCache]: a map from cache keys to suggestion lists. *)
Definition Cache : Type := list (jsstring * list AddressSuggestion.t).

Definition parseLocation (location : option jsstring) : option Amap.LngLat :=
  match location with
  | None => None
  | Some location =>
    if negb (nonEmpty location) then None
    else
      let parts := Amap.split 44 location in
      let lng := nth_error parts 0 in
      let lat := nth_error parts 1 in
      let longitude := Amap.NumberOf lng in
      let latitude := Amap.NumberOf lat in
      if isNaN longitude || isNaN latitude then None
      else Some {| Amap.longitude := longitude; Amap.latitude := latitude |}
  end.

(** [xs.filter(Boolean)] on optional strings. *)
Definition filterBoolean (xs : list (option jsstring)) : list jsstring :=
  flat_map (fun x => match x with
                     | Some s => if nonEmpty s then [s] else []
                     | None => []
                     end) xs.

(** [xs.join(sep)] *)
Fixpoint join (sep : jsstring) (xs : list jsstring) : jsstring :=
  match xs with
  | [] => []
  | x :: rest =>
    match rest with
    | [] => x
    | _ => x ++ sep ++ join sep rest
    end
  end.

(** [x || d] on strings. *)
Definition orDefault (x d : jsstring) : jsstring := if nonEmpty x then x else d.

(** The mapping of one place of a response to a suggestion; [parts] are
    the fields its address is joined from.  [None] stands for the [null]
    that the following [filter] drops. *)
Definition suggestionOf (parts : list (option jsstring)) (place : Place)
  : option AddressSuggestion.t :=
  let point := parseLocation (location place) in
  match point, name place with
  | Some point, Some placeName =>
    if negb (nonEmpty placeName) then None
    else
      let address := join (js " ") (filterBoolean parts) in
      Some {| AddressSuggestion.id :=
                orElse (id place)
                       (placeName ++ js "-" ++ orElse (location place) []);
              AddressSuggestion.name := placeName;
              AddressSuggestion.address := orDefault address (js "未知地址");
              AddressSuggestion.latitude := Amap.latitude point;
              AddressSuggestion.longitude := Amap.longitude point |}
  | _, _ => None
  end.

(** [(textJson.pois ?? []).map(...).filter(...)] *)
Definition suggestionsOfPois (places : list Place) : list AddressSuggestion.t :=
  flat_map (fun poi =>
              match suggestionOf [pname poi; cityname poi; adname poi; address poi] poi with
              | Some s => [s]
              | None => []
              end) places.

(** [(tipJson.tips ?? []).map(...).filter(...)] *)
Definition suggestionsOfTips (places : list Place) : list AddressSuggestion.t :=
  flat_map (fun tip =>
              match suggestionOf [district tip; address tip] tip with
              | Some s => [s]
              | None => []
              end) places.

(** [cached?.length] as a truth value. *)
Definition cachedNonEmpty (cache : Cache) (cacheKey : jsstring)
  : option (list AddressSuggestion.t) :=
  match mapGet cacheKey cache with
  | Some (x :: l) => Some (x :: l)
  | _ => None
  end.

(** How the text-search loop ends: it runs to its end or breaks with
    [poiList], the function returns from inside it, or it throws. *)
Inductive LoopEnd : Type :=
| Finished (poiList : list AddressSuggestion.t)
| ReturnedEarly (result : list AddressSuggestion.t)
| Thrown_ (e : Thrown).

(** The [for (const keywordText of keywordVariants)] loop.  [net n] is the
    result of the [n]-th [fetch] of the call and [callIndex] counts the
    fetches made so far; the second component is that count afterwards. *)
Fixpoint textSearchLoop (net : nat -> FetchResult) (cache : Cache)
         (cacheKey : jsstring) (limit : Z) (keywordVariants : list jsstring)
         (callIndex : nat) (poiList : list AddressSuggestion.t)
  : LoopEnd * nat :=
  match keywordVariants with
  | [] => (Finished poiList, callIndex)
  | _ :: rest =>
    match net callIndex with
    | Rejected => (Thrown_ OtherError, S callIndex)
    | Response ok _ body =>
      if negb ok then
        textSearchLoop net cache cacheKey limit rest (S callIndex) poiList
      else
        match body with
        | None => (Thrown_ OtherError, S callIndex)
        | Some textJson =>
          let afterStatus :=
            if statusIsOne textJson
            then inl (suggestionsOfPois (orElse (pois textJson) []))
            else if match infocode textJson with
                    | Some c => JsString.eqb c (js "10021")
                    | None => false
                    end
            then match cachedNonEmpty cache cacheKey with
                 | Some quickCache => inr quickCache
                 | None => inl poiList
                 end
            else inl poiList in
          match afterStatus with
          | inr quickCache => (ReturnedEarly quickCache, S callIndex)
          | inl poiList =>
            if limit <=? Z.of_nat (length poiList)
            then (Finished poiList, S callIndex)
            else textSearchLoop net cache cacheKey limit rest (S callIndex) poiList
          end
        end
    end
  end.

(** The [try { ... } catch { tipList = [] }] block around the input-tips
    request. *)
Definition fetchTips (response : FetchResult) : list AddressSuggestion.t :=
  match response with
  | Rejected => []
  | Response ok _ body =>
    if ok then
      match body with
      | None => []
      | Some tipJson =>
        if statusIsOne tipJson then suggestionsOfTips (orElse (tips tipJson) [])
        else []
      end
    else []
  end.

(** [`${item.name}|${item.latitude.toFixed(6)}|${item.longitude.toFixed(6)}`] *)
Definition keyOfItem (item : AddressSuggestion.t) : jsstring :=
  AddressSuggestion.name item ++ js "|"
    ++ toFixed 6 (AddressSuggestion.latitude item) ++ js "|"
    ++ toFixed 6 (AddressSuggestion.longitude item).

(** The [for (const item of merged)] loop. *)
Fixpoint dedupeLoop (limit : Z) (merged : list AddressSuggestion.t)
         (seen : list jsstring) (deduped : list AddressSuggestion.t)
  : list AddressSuggestion.t :=
  match merged with
  | [] => deduped
  | item :: rest =>
    let key := keyOfItem item in
    if existsb (JsString.eqb key) seen then dedupeLoop limit rest seen deduped
    else
      let seen := key :: seen in
      let deduped := deduped ++ [item] in
      if limit <=? Z.of_nat (length deduped) then deduped
      else dedupeLoop limit rest seen deduped
  end.

Definition noCandidatesMessage : jsstring :=
  js "暂无可用候选，请稍后重试或补充关键词".

(** [fetchAddressSuggestions({ key, keyword, city, limit })] run against
    the provider [net] with the cache [cache]: its outcome and the cache
    afterwards.  [limit] defaults to 8. *)
Definition fetchAddressSuggestions (net : nat -> FetchResult) (cache : Cache)
           (keyword : jsstring) (city : option jsstring) (limit : option Z)
  : Outcome (list AddressSuggestion.t) * Cache :=
  let limit := orElse limit 8 in
  let trimmed := trim keyword in
  if negb (nonEmpty trimmed) then (Returned [], cache)
  else
    let cacheKey :=
      trimmed ++ js "|" ++ orElse city [] ++ js "|" ++ ofInt limit in
    match cachedNonEmpty cache cacheKey with
    | Some cached => (Returned cached, cache)
    | None =>
      let keywordVariants :=
        if test HOTEL_BRAND_REGEX trimmed
        then [trimmed; trimmed ++ js "酒店"]
        else [trimmed] in
      match textSearchLoop net cache cacheKey limit keywordVariants 0 [] with
      | (Thrown_ e, _) => (Threw e, cache)
      | (ReturnedEarly quickCache, _) => (Returned quickCache, cache)
      | (Finished poiList, callIndex) =>
        let tipList := fetchTips (net callIndex) in
        let merged := tipList ++ poiList in
        let deduped := dedupeLoop limit merged [] [] in
        match deduped with
        | [] => (Threw (AmapApiError noCandidatesMessage None), cache)
        | _ => (Returned deduped, mapSet cacheKey deduped cache)
        end
      end
    end.

End InputTips.

Import Amap.

(* ================================================================== *)
(** * The vocabulary of the specification *)
(* ================================================================== *)

(** The indicator [[b]] of a condition: 1 when it holds, 0 otherwise. *)
Definition ind (b : bool) : Z := if b then 1 else 0.

(** [a / b] rounded to the nearest whole number in exact arithmetic, a tie
    going up ([0 < b]). *)
Definition roundHalfUp (a b : Z) : Z := (2 * a + b) / (2 * b).

(** A city token is known: the city name, stripped of its administrative
    suffix, is not empty. *)
Definition cityKnown (cityName : option jsstring) : bool :=
  nonEmpty (normalizeCityToken cityName).

(** City-name match: a city token is known and the normalized name
    contains it. *)
Definition cityNameMatch (name : jsstring) (cityName : option jsstring) : bool :=
  cityKnown cityName
  && includes (normalizeCityToken cityName) (normalizeStationName name).

(** The tags whose condition holds, in the order of the table. *)
Definition tagsWhen (table : list (bool * jsstring)) : list jsstring :=
  map snd (filter fst table).

(** [capacityScore*0.45 + lineCountScore*0.35 + highSpeedScore*0.2] as
    JavaScript evaluates it, on binary64 numbers from left to right. *)
Definition weightedSum (capacityScore lineCountScore highSpeedScore : Z) : number :=
  fadd (fadd (fmul (ofZ capacityScore) (lit "0.45"))
             (fmul (ofZ lineCountScore) (lit "0.35")))
       (fmul (ofZ highSpeedScore) (lit "0.2")).

(** The same sum in exact arithmetic. *)
Definition weightedSumExact (capacityScore lineCountScore highSpeedScore : Z) : Q :=
  Qmake (45 * capacityScore + 35 * lineCountScore + 20 * highSpeedScore) 100.

(** [round((distanceMeters ?? 120000) / 1000 * 0.65)] capped at 85, as
    JavaScript evaluates it. *)
Definition distancePenalty (distanceMeters : option Z) : Z :=
  Z.min 85
    (Math_round
       (fmul (fdiv (ofZ (match distanceMeters with Some d => d | None => 120000 end))
                   (ofZ 1000))
             (lit "0.65"))).

(** The same penalty in exact arithmetic: [0.65 * d / 1000 = 13 d / 20000]. *)
Definition distancePenaltyExact (distanceMeters : option Z) : Z :=
  Z.min 85
    (roundHalfUp (13 * match distanceMeters with Some d => d | None => 120000 end)
                 20000).

(** A distance that is [null] or not negative. *)
Definition nonNegativeDistance (distanceMeters : option Z) : Prop :=
  match distanceMeters with Some d => 0 <= d | None => True end.

(** A number that is not below zero (NaN apart). *)
Definition notNegative (x : number) : Prop := isNegative x = false.

(** The signals of the airport heuristic. *)
Definition isInternationalName (name : jsstring) : bool :=
  includes (js "国际机场") (normalizeStationName name).
Definition isAirportName (name : jsstring) : bool :=
  includes (js "机场") (normalizeStationName name).
Definition isSmallAirportName (name : jsstring) : bool :=
  test (Words [js "通用"; js "直升机"; js "训练"; js "校飞"; js "试飞";
               js "观光"; js "航校"; js "产业园"; js "航空港园区"; js "机库";
               js "营地"]) (normalizeStationName name).

(** The number of city tags (city-match or non-city-match) among [tags]. *)
Definition cityTagCount (tags : list jsstring) : nat :=
  length (filter (fun t => JsString.eqb t (js "同城机场")
                           || JsString.eqb t (js "非同城机场")) tags).


(** The order of the train ranking: higher composite score first, then
    higher line count estimate, then shorter distance (a missing distance
    counting as the largest). *)
Definition trainOrder (a b : RankedTrain) : Prop :=
  let scoreA := TrainStationProfile.compositeScore (rt_profile a) in
  let scoreB := TrainStationProfile.compositeScore (rt_profile b) in
  let linesA := TrainStationProfile.lineCountEstimate (rt_profile a) in
  let linesB := TrainStationProfile.lineCountEstimate (rt_profile b) in
  (scoreB < scoreA)%Q
  \/ ((scoreA == scoreB)%Q
      /\ (linesB < linesA
          \/ (linesA = linesB
              /\ distanceOrMax (HubResult.distanceMeters (rt_item a))
                 <= distanceOrMax (HubResult.distanceMeters (rt_item b))))).

(** The order of the airport ranking: higher score first, then shorter
    distance. *)
Definition airportOrder (a b : RankedAirport) : Prop :=
  ra_score b < ra_score a
  \/ (ra_score a = ra_score b
      /\ distanceOrMax (HubResult.distanceMeters (ra_item a))
         <= distanceOrMax (HubResult.distanceMeters (ra_item b))).

(** Descending score, on the candidates of a result. *)
Definition scoreDescending (x y : HubCandidate.t) : Prop :=
  (HubCandidate.score y <= HubCandidate.score x)%Q.

(** A candidate entry names the hub [r]: same name, address and distance. *)
Definition sameIdentity (c : HubCandidate.t) (r : HubResult.t) : Prop :=
  HubCandidate.name c = HubResult.name r
  /\ HubCandidate.address c = HubResult.address r
  /\ HubCandidate.distanceMeters c = HubResult.distanceMeters r.

(** The score a hub result carries of its own: the composite score of its
    train profile, when it has one.  ([HubResult] has no other score.) *)
Definition ownScore (r : HubResult.t) : option Q :=
  option_map TrainStationProfile.compositeScore (HubResult.trainProfile r).

(** A hub with empty fields, for the other fields of example candidates. *)
Definition blankHub : HubResult.t :=
  {| HubResult.kind := train; HubResult.kindLabel := [];
     HubResult.name := []; HubResult.address := [];
     HubResult.distanceMeters := None;
     HubResult.latitude := S754_zero false; HubResult.longitude := S754_zero false;
     HubResult.highSpeedQueryHit := None;
     HubResult.trainProfile := None; HubResult.topCandidates := None |}.

(** ** Maps built by a fold *)

Section KeyedFold.
Context {A V : Type}.
Variables (key : A -> jsstring) (init : A -> V) (upd : V -> A -> V).

(** One round of a loop that files each element under its key: the first
    element of a key starts the entry, a later one updates it. *)
Definition keyedStep (m : list (jsstring * V)) (a : A) : list (jsstring * V) :=
  match mapGet (key a) m with
  | None => mapSet (key a) (init a) m
  | Some v => mapSet (key a) (upd v a) m
  end.
End KeyedFold.

(** The distance that orders candidates, a missing one counting as the
    largest. *)
Definition distanceOf (r : HubResult.t) : Z :=
  distanceOrMax (HubResult.distanceMeters r).

(** [g] is the first of the nearest members of [group]. *)
Definition firstNearest (g : HubResult.t) (group : list HubResult.t) : Prop :=
  exists before after,
    group = before ++ g :: after
    /\ (forall x, In x before -> distanceOf g < distanceOf x)
    /\ (forall x, In x after -> distanceOf g <= distanceOf x).

(** The candidate's canonical airport name is [key]. *)
Definition sameAirport (key : jsstring) (item : HubResult.t) : bool :=
  JsString.eqb (canonicalAirportName (HubResult.name item)) key.

(** The candidate's deduplication key is [key]. *)
Definition collides (key : jsstring) (item : HubResult.t) : bool :=
  JsString.eqb (hubKey item) key.

(** What [dedupeHubs] stores on a collision. *)
Definition mergeHub (existing item : HubResult.t) : HubResult.t :=
  HubResult.withHighSpeedQueryHit
    (if distanceOf item <? distanceOf existing then item else existing)
    (truthy (HubResult.highSpeedQueryHit existing)
     || truthy (HubResult.highSpeedQueryHit item)).

(** Two hubs are equal apart from their query-hit flag. *)
Definition apartFromFlag (a b : HubResult.t) : Prop :=
  HubResult.withHighSpeedQueryHit a false = HubResult.withHighSpeedQueryHit b false.

(** Some candidate of the list has a truthy query-hit flag. *)
Definition anyQueryHit (group : list HubResult.t) : bool :=
  existsb (fun item => truthy (HubResult.highSpeedQueryHit item)) group.

(** A number that is neither NaN nor an infinity. *)
Definition isFiniteNumber (x : number) : bool :=
  match x with
  | S754_zero _ | S754_finite _ _ _ => true
  | _ => false
  end.

(** The comma-separated tokens of a location string. *)
Definition tokens (location : jsstring) : list jsstring := split 44 location.

(** A failed request as the caller of [fetch] sees it: a response that is
    not [ok], or one whose body does not have the status ['1']. *)
Definition failedResponse (r : Provider.FetchResult) : bool :=
  match r with
  | Provider.Response false _ _ => true
  | Provider.Response true _ (Some json) => negb (Provider.statusIsOne json)
  | _ => false
  end.

(** The cache key of [fetchAddressSuggestions]:
    [`${trimmed}|${city ?? ''}|${limit}`] with [limit] defaulting to 8. *)
Definition suggestionCacheKey (keyword : jsstring) (city : option jsstring)
           (limit : option Z) : jsstring :=
  trim keyword ++ js "|" ++ Provider.orElse city [] ++ js "|"
    ++ ofInt (Provider.orElse limit 8).

(** Example responses of the provider. *)
Definition exampleTip : Provider.Place :=
  {| Provider.id := Some (js "B000A83M61");
     Provider.name := Some (js "北京南站");
     Provider.address := Some (js "永外大街车站路12号");
     Provider.distance := None;
     Provider.location := Some (js "116.378517,39.865246");
     Provider.district := Some (js "北京市丰台区");
     Provider.pname := None;
     Provider.cityname := None;
     Provider.adname := None |}.

(** A successful input-tips response with the one tip [exampleTip]. *)
Definition exampleTipsResponse : Provider.FetchResult :=
  Provider.Response true 200
    (Some {| Provider.status := Some (js "1");
             Provider.infocode := Some (js "10000");
             Provider.info := Some (js "OK");
             Provider.pois := None;
             Provider.tips := Some [exampleTip] |}).

(** A response with HTTP status 200 whose body reports the provider error
    [infocode], status ['0']. *)
Definition providerErrorResponse (infocode info : string) : Provider.FetchResult :=
  Provider.Response true 200
    (Some {| Provider.status := Some (js "0");
             Provider.infocode := Some (js infocode);
             Provider.info := Some (js info);
             Provider.pois := None;
             Provider.tips := None |}).

(** The suggestion that [exampleTip] maps to. *)
Definition exampleSuggestion : InputTips.AddressSuggestion.t :=
  {| InputTips.AddressSuggestion.id := js "B000A83M61";
     InputTips.AddressSuggestion.name := js "北京南站";
     InputTips.AddressSuggestion.address := js "北京市丰台区 永外大街车站路12号";
     InputTips.AddressSuggestion.latitude := lit "39.865246";
     InputTips.AddressSuggestion.longitude := lit "116.378517" |}.
(* ================================================================== *)
(** * Properties *)
(* ================================================================== *)

(** ** Train station profiles *)

(** C1. The profile of a station name: the capacity score is the clamped
    sum of the signal bonuses (a whole number), the line count estimate
    and score are the clamped roundings of [capacityScore / 11] plus the
    signal terms and of [lineCountEstimate * 4.2], the high-speed score
    is 100 or 30, the composite score is the weighted sum written with
    one decimal (the decimal nearest to the binary64 value of the sum,
    which is within half a tenth of the exact sum), and the reason tags
    are those of the signals that hold, in the fixed order. *)
Theorem buildTrainStationProfile_formulas :
  forall (name : jsstring) (cityName : option jsstring),
    let n := normalizeStationName name in
    let cityMatch := cityNameMatch name cityName in
    let cityMainStyle := isCityMainStyleName n in
    let directionalSuffix := hasDirectionalStationSuffix n in
    let nationalHubStyle := isNationalHubStyleName n in
    let highSpeed := hasHighSpeedSignal n in
    let countyLevel := isCountyLevelName n in
    let p := buildTrainStationProfile name cityName in
    let capacityScore := TrainStationProfile.capacityScore p in
    let lineCountEstimate := TrainStationProfile.lineCountEstimate p in
    let lineCountScore := TrainStationProfile.lineCountScore p in
    let highSpeedScore := TrainStationProfile.highSpeedScore p in
    capacityScore
    = clamp (20 + 38 * ind cityMatch + 20 * ind cityMainStyle
             + 12 * ind directionalSuffix + 12 * ind nationalHubStyle
             + 10 * ind highSpeed - 65 * ind countyLevel) 0 100
    /\ lineCountEstimate
       = clamp (roundHalfUp capacityScore 11 + 4 * ind cityMatch
                + 3 * ind highSpeed + 2 * ind cityMainStyle
                - 2 * ind countyLevel) 1 24
    /\ lineCountScore = clamp (roundHalfUp (42 * lineCountEstimate) 10) 0 100
    /\ highSpeedScore = (if highSpeed then 100 else 30)
    /\ TrainStationProfile.hasHighSpeedSignal p = highSpeed
    /\ TrainStationProfile.compositeScore p
       = toFixedValue 1 (weightedSum capacityScore lineCountScore highSpeedScore)
    /\ (Qabs (TrainStationProfile.compositeScore p
              - weightedSumExact capacityScore lineCountScore highSpeedScore)
        <= 1 # 20)%Q
    /\ TrainStationProfile.reasonTags p
       = tagsWhen [(cityMatch, js "同城主站信号");
                   (cityMainStyle, js "主站命名");
                   (highSpeed, js "高铁信号");
                   (nationalHubStyle, js "全国级枢纽命名");
                   (countyLevel, js "县镇级命名")].
Proof.
  intros name cityName.
  unfold buildTrainStationProfile, cityNameMatch, cityKnown.
  cbv zeta.
  replace (if nonEmpty (normalizeCityToken cityName)
           then includes (normalizeCityToken cityName) (normalizeStationName name)
           else false)
    with (nonEmpty (normalizeCityToken cityName)
          && includes (normalizeCityToken cityName) (normalizeStationName name))
    by (destruct (nonEmpty (normalizeCityToken cityName)); reflexivity).
  generalize (nonEmpty (normalizeCityToken cityName)
              && includes (normalizeCityToken cityName) (normalizeStationName name)).
  generalize (isCityMainStyleName (normalizeStationName name)).
  generalize (hasDirectionalStationSuffix (normalizeStationName name)).
  generalize (isNationalHubStyleName (normalizeStationName name)).
  generalize (hasHighSpeedSignal (normalizeStationName name)).
  generalize (isCountyLevelName (normalizeStationName name)).
  intros cl hs nh ds ms cm.
  destruct cl, hs, nh, ds, ms, cm;
    vm_compute; (repeat split); (reflexivity || discriminate).
Qed.
(** ** Airport scores *)

Lemma binary_round_aux_sign :
  forall (s : bool) (mx ex : Z) (lx : location),
    isNegative (binary_round_aux prec emax s mx ex lx) = true -> s = true.
Proof.
  intros s mx ex lx. unfold binary_round_aux.
  destruct (shr_fexp prec emax mx ex lx) as [mrs' e'].
  destruct (shr_fexp prec emax _ e' loc_Exact) as [mrs'' e''].
  destruct (shr_m mrs'') as [|m|m]; simpl; intros H; try discriminate H.
  destruct (e'' <=? _); destruct s; simpl in H; auto; discriminate H.
Qed.

Lemma ofZ_notNegative : forall z : Z, 0 <= z -> notNegative (ofZ z).
Proof.
  intros z Hz. unfold notNegative, ofZ, binary_normalize.
  destruct z as [|p|p]; [reflexivity | | lia].
  unfold binary_round.
  destruct (shl_align p 0 _) as [mz ez].
  destruct (isNegative (binary_round_aux prec emax false (Z.pos mz) ez loc_Exact)) eqn:E;
    [apply binary_round_aux_sign in E; discriminate | reflexivity].
Qed.

Lemma fdiv_notNegative :
  forall (x : number) (m : positive) (e : Z),
    notNegative x -> notNegative (fdiv x (S754_finite false m e)).
Proof.
  intros x m e Hx. unfold notNegative in *.
  destruct x as [s|s| |s mx ex]; simpl in *; try (destruct s; auto; discriminate).
  - reflexivity.
  - destruct s; [discriminate|]. unfold fdiv, SFdiv.
    destruct (SFdiv_core_binary prec emax (Z.pos mx) ex (Z.pos m) e) as [[mz ez] lz].
    destruct (isNegative (binary_round_aux prec emax (xorb false false) mz ez lz)) eqn:E;
      [apply binary_round_aux_sign in E; discriminate | reflexivity].
Qed.

Lemma fmul_notNegative :
  forall (x : number) (m : positive) (e : Z),
    notNegative x -> notNegative (fmul x (S754_finite false m e)).
Proof.
  intros x m e Hx. unfold notNegative in *.
  destruct x as [s|s| |s mx ex]; simpl in *; try (destruct s; auto; discriminate).
  - reflexivity.
  - destruct s; [discriminate|]. unfold fmul, SFmul.
    destruct (isNegative (binary_round_aux prec emax (xorb false false)
                            (Z.pos (mx * m)) (ex + e) loc_Exact)) eqn:E;
      [apply binary_round_aux_sign in E; discriminate | reflexivity].
Qed.

Lemma Math_round_notNegative : forall x : number, notNegative x -> 0 <= Math_round x.
Proof.
  intros x Hx. unfold notNegative in Hx.
  destruct x as [s|s| |s m e]; unfold Math_round; try lia.
  destruct s; [discriminate|].
  assert (Hpow : forall k, 0 <= k -> 0 < 2 ^ k)
    by (intros k Hk; apply Z.pow_pos_nonneg; lia).
  destruct (0 <=? e) eqn:He.
  - apply Z.leb_le in He. specialize (Hpow e He).
    apply Z.mul_nonneg_nonneg; lia.
  - apply Z.leb_gt in He.
    apply Z.div_pos.
    + specialize (Hpow (- e)). lia.
    + apply Hpow. lia.
Qed.

Lemma distancePenalty_range :
  forall d : option Z, nonNegativeDistance d -> 0 <= distancePenalty d <= 85.
Proof.
  intros d Hd. unfold distancePenalty. split; [|apply Z.le_min_l].
  apply Z.min_glb; [lia|].
  apply Math_round_notNegative.
  change (lit "0.65") with (S754_finite false 5854679515581645 (-53)).
  apply fmul_notNegative.
  change (ofZ 1000) with (S754_finite false 8796093022208000 (-43)).
  apply fdiv_notNegative.
  apply ofZ_notNegative.
  destruct d; simpl in Hd; lia.
Qed.

(** C3, as amended.  The score of an airport is 30, plus 45 for the
    international keyword, plus 18 for the airport keyword, plus 18 on a
    city-name match, minus 18 when a city token is known and does not
    match, minus 70 for a small-airport keyword, minus the distance
    penalty [min(85, round(d / 1000 * 0.65))] with [d] defaulting to
    120000.  Its tags are, in order: the international tag when
    international; the city-match tag on a match, the non-city-match tag
    when a city token is known and does not match, and neither of the two
    when no city token is known; the small-airport tag when that signal
    holds; and last the tag 距离扣分 followed by the penalty. *)
Theorem buildAirportScore_formula :
  forall (name : jsstring) (cityName : option jsstring) (distanceMeters : option Z),
    let cityMatch := cityNameMatch name cityName in
    let known := cityKnown cityName in
    let penalty := distancePenalty distanceMeters in
    let r := buildAirportScore name cityName distanceMeters in
    score r
    = 30 + 45 * ind (isInternationalName name) + 18 * ind (isAirportName name)
      + 18 * ind cityMatch - 18 * ind (known && negb cityMatch)
      - 70 * ind (isSmallAirportName name) - penalty
    /\ reasonTags r
       = tagsWhen [(isInternationalName name, js "国际机场");
                   (cityMatch, js "同城机场");
                   (known && negb cityMatch, js "非同城机场");
                   (isSmallAirportName name, js "疑似通用机场")]
         ++ [js "距离扣分" ++ ofInt penalty]
    /\ cityTagCount (reasonTags r) = (if known then 1%nat else 0%nat).
Proof.
  intros name cityName distanceMeters.
  unfold buildAirportScore, cityNameMatch, cityKnown, isInternationalName,
    isAirportName, isSmallAirportName, distancePenalty.
  cbv zeta.
  generalize (Z.min 85
                (Math_round
                   (fmul (fdiv (ofZ match distanceMeters with
                                    | Some d => d
                                    | None => 120000
                                    end) (ofZ 1000)) (lit "0.65")))).
  intros penalty.
  generalize (includes (normalizeCityToken cityName) (normalizeStationName name)).
  generalize (nonEmpty (normalizeCityToken cityName)).
  generalize (includes (js "国际机场") (normalizeStationName name)).
  generalize (includes (js "机场") (normalizeStationName name)).
  generalize (test (Words [js "通用"; js "直升机"; js "训练"; js "校飞"; js "试飞";
                           js "观光"; js "航校"; js "产业园"; js "航空港园区";
                           js "机库"; js "营地"]) (normalizeStationName name)).
  intros small air intl known incl.
  destruct small, air, intl, known, incl; unfold ind, tagsWhen; simpl;
    (split; [lia | split; reflexivity]).
Qed.

(** C3 as stated fails: with no city name the tags of an airport hold
    neither the city-match nor the non-city-match tag, not exactly one of
    them. *)
Lemma buildAirportScore_no_city_tag :
  reasonTags (buildAirportScore (js "首都国际机场") None (Some 25000))
  = [js "国际机场"; js "距离扣分16"]
  /\ cityTagCount (reasonTags (buildAirportScore (js "首都国际机场") None (Some 25000)))
     <> 1%nat.
Proof.
  split; [vm_compute; reflexivity | vm_compute; discriminate].
Qed.

(** C10. For a distance that is null or not negative the airport score
    lies between -143 and 111.  It is not clamped to the range from 0 to
    100: both bounds are reached, the upper one by an international
    airport of the city at distance 0, the lower one (a strictly negative
    score) by a name with a small-aviation keyword, a known city that does
    not match and a large distance. *)
Theorem buildAirportScore_range :
  (forall (name : jsstring) (cityName : option jsstring) (distanceMeters : option Z),
      nonNegativeDistance distanceMeters ->
      -143 <= score (buildAirportScore name cityName distanceMeters) <= 111)
  /\ score (buildAirportScore (js "北京首都国际机场") (Some (js "北京市")) (Some 0)) = 111
  /\ score (buildAirportScore (js "通用航空训练营地") (Some (js "北京市")) (Some 200000)) = -143
  /\ score (buildAirportScore (js "通用航空训练营地") (Some (js "北京市")) (Some 200000)) < 0.
Proof.
  split; [|repeat split; vm_compute; reflexivity].
  intros name cityName distanceMeters Hd.
  pose proof (distancePenalty_range distanceMeters Hd) as Hp.
  unfold distancePenalty in Hp.
  unfold buildAirportScore. cbv zeta.
  set (penalty := Z.min 85 _) in *.
  clearbody penalty.
  cbn [score].
  destruct (includes (js "国际机场") (normalizeStationName name)),
    (includes (js "机场") (normalizeStationName name)),
    (if nonEmpty (normalizeCityToken cityName)
     then includes (normalizeCityToken cityName) (normalizeStationName name)
     else false),
    (nonEmpty (normalizeCityToken cityName)),
    (test _ (normalizeStationName name));
    cbv beta iota delta [negb andb]; lia.
Qed.

(** The range at a concrete airport. *)
Lemma buildAirportScore_range_witness :
  -143 <= score (buildAirportScore (js "首都国际机场") (Some (js "北京市")) (Some 25000))
  <= 111.
Proof.
  apply (proj1 buildAirportScore_range). simpl. lia.
Defined.

(** ** Sorting with a comparator *)

Section SortFacts.
Context {A : Type}.
Variable cmp : A -> A -> comparison.

Hypothesis cmp_total : forall a b, cmp a b = Gt -> before cmp b a.
Hypothesis before_trans : forall a b c, before cmp a b -> before cmp b c -> before cmp a c.

Lemma insertBy_perm : forall (x : A) (l : list A), Permutation (x :: l) (insertBy cmp x l).
Proof.
  intros x l. induction l as [|y l IH]; simpl.
  - apply Permutation_refl.
  - destruct (cmp x y); try apply Permutation_refl.
    eapply perm_trans; [apply perm_swap|]. apply perm_skip. exact IH.
Qed.

Lemma sortBy_perm : forall l : list A, Permutation l (sortBy cmp l).
Proof.
  induction l as [|x l IH]; simpl.
  - apply perm_nil.
  - eapply perm_trans; [apply perm_skip; exact IH | apply insertBy_perm].
Qed.

Lemma insertBy_sorted :
  forall (x : A) (l : list A),
    StronglySorted (before cmp) l -> StronglySorted (before cmp) (insertBy cmp x l).
Proof.
  intros x l Hs. induction Hs as [|y l Hs IH Hy]; simpl.
  - constructor; constructor.
  - destruct (cmp x y) eqn:E.
    + constructor; [constructor; assumption|].
      assert (Hxy : before cmp x y) by (unfold before; rewrite E; discriminate).
      constructor; [exact Hxy|].
      eapply Forall_impl; [|exact Hy]. intros z Hz. eapply before_trans; eassumption.
    + constructor; [constructor; assumption|].
      assert (Hxy : before cmp x y) by (unfold before; rewrite E; discriminate).
      constructor; [exact Hxy|].
      eapply Forall_impl; [|exact Hy]. intros z Hz. eapply before_trans; eassumption.
    + constructor; [exact IH|].
      assert (Hyx : before cmp y x) by (apply cmp_total; exact E).
      eapply Permutation_Forall; [apply insertBy_perm|].
      constructor; assumption.
Qed.

Lemma sortBy_sorted : forall l : list A, StronglySorted (before cmp) (sortBy cmp l).
Proof.
  induction l as [|x l IH]; simpl.
  - constructor.
  - apply insertBy_sorted. exact IH.
Qed.

Lemma sortBy_nil : forall l : list A, sortBy cmp l = [] -> l = [].
Proof.
  intros l H. pose proof (sortBy_perm l) as P. rewrite H in P.
  apply Permutation_sym, Permutation_nil in P. exact P.
Qed.

Lemma sortBy_length : forall l : list A, length (sortBy cmp l) = length l.
Proof.
  intros l. symmetry. apply Permutation_length, sortBy_perm.
Qed.

(** The head of a sorted list may stand before each of its elements. *)
Lemma sortBy_head :
  forall (l : list A) (x : A) (rest : list A),
    (forall a, before cmp a a) ->
    sortBy cmp l = x :: rest ->
    In x l /\ forall y, In y l -> before cmp x y.
Proof.
  intros l x rest Hrefl H.
  pose proof (sortBy_perm l) as P. pose proof (sortBy_sorted l) as S.
  rewrite H in P, S. split.
  - eapply Permutation_in; [apply Permutation_sym; exact P | left; reflexivity].
  - intros y Hy. apply (Permutation_in _ P) in Hy. destruct Hy as [<-|Hy].
    + apply Hrefl.
    + inversion S as [|? ? _ Hall]; subst.
      rewrite Forall_forall in Hall. apply Hall. exact Hy.
Qed.

End SortFacts.

Lemma In_firstn :
  forall (A : Type) (n : nat) (l : list A) (x : A), In x (firstn n l) -> In x l.
Proof.
  intros A n l x H. rewrite <- (firstn_skipn n l). apply in_or_app. left. exact H.
Qed.

(** A part of a strongly sorted list is strongly sorted. *)
Lemma StronglySorted_firstn :
  forall (A : Type) (R : A -> A -> Prop) (n : nat) (l : list A),
    StronglySorted R l -> StronglySorted R (firstn n l).
Proof.
  intros A R n. induction n as [|n IH]; intros l Hs; simpl.
  - constructor.
  - destruct Hs as [|x l Hs Hx]; [constructor|].
    constructor; [apply IH; exact Hs|].
    rewrite Forall_forall in *. intros y Hy. apply Hx.
    eapply In_firstn; eauto.
Qed.

Lemma StronglySorted_map :
  forall (A B : Type) (R : A -> A -> Prop) (R' : B -> B -> Prop) (f : A -> B) (l : list A),
    (forall a b, R a b -> R' (f a) (f b)) ->
    StronglySorted R l -> StronglySorted R' (map f l).
Proof.
  intros A B R R' f l HR Hs. induction Hs as [|x l Hs IH Hx]; simpl.
  - constructor.
  - constructor; [exact IH|].
    rewrite Forall_forall in *. intros y Hy.
    apply in_map_iff in Hy. destruct Hy as [z [<- Hz]]. apply HR, Hx, Hz.
Qed.

Lemma StronglySorted_impl :
  forall (A : Type) (R R' : A -> A -> Prop) (l : list A),
    (forall a b, R a b -> R' a b) ->
    StronglySorted R l -> StronglySorted R' l.
Proof.
  intros A R R' l HR Hs. induction Hs as [|x l Hs IH Hx].
  - constructor.
  - constructor; [exact IH|].
    eapply Forall_impl; [|exact Hx]. intros y. apply HR.
Qed.

(** ** The comparators of the rankings *)

Lemma distanceCompare_total :
  forall a b, distanceCompare a b = Gt -> before distanceCompare b a.
Proof.
  unfold before, distanceCompare. intros a b H.
  rewrite Z.compare_gt_iff in H. intros G. rewrite Z.compare_gt_iff in G. lia.
Qed.

Lemma distanceCompare_trans :
  forall a b c,
    before distanceCompare a b -> before distanceCompare b c ->
    before distanceCompare a c.
Proof.
  unfold before, distanceCompare. intros a b c H1 H2.
  rewrite Z.compare_gt_iff in *. lia.
Qed.

Lemma distanceCompare_before :
  forall a b,
    before distanceCompare a b
    <-> distanceOrMax (HubResult.distanceMeters a)
        <= distanceOrMax (HubResult.distanceMeters b).
Proof.
  unfold before, distanceCompare. intros a b. rewrite Z.compare_gt_iff. lia.
Qed.

Lemma airportCompare_before :
  forall a b, before airportCompare a b <-> airportOrder a b.
Proof.
  intros a b. unfold before, airportCompare, airportOrder.
  destruct (ra_score b =? ra_score a) eqn:E; simpl.
  - apply Z.eqb_eq in E. rewrite Z.compare_gt_iff. lia.
  - apply Z.eqb_neq in E. rewrite Z.compare_gt_iff. lia.
Qed.

Lemma airportCompare_total :
  forall a b, airportCompare a b = Gt -> before airportCompare b a.
Proof.
  intros a b H. apply airportCompare_before.
  assert (N : ~ airportOrder a b)
    by (intros O; apply airportCompare_before in O; apply O; exact H).
  unfold airportOrder in *. lia.
Qed.

Lemma airportCompare_trans :
  forall a b c,
    before airportCompare a b -> before airportCompare b c ->
    before airportCompare a c.
Proof.
  intros a b c H1 H2. rewrite airportCompare_before in *.
  unfold airportOrder in *. lia.
Qed.

Lemma trainCompare_before :
  forall a b, before trainCompare a b <-> trainOrder a b.
Proof.
  intros a b. unfold before, trainCompare, trainOrder. cbv zeta.
  set (sa := TrainStationProfile.compositeScore (rt_profile a)).
  set (sb := TrainStationProfile.compositeScore (rt_profile b)).
  set (la := TrainStationProfile.lineCountEstimate (rt_profile a)).
  set (lb := TrainStationProfile.lineCountEstimate (rt_profile b)).
  destruct (Qeq_bool sb sa) eqn:E; simpl.
  - apply Qeq_bool_iff in E.
    destruct (lb =? la) eqn:F; simpl.
    + apply Z.eqb_eq in F. rewrite Z.compare_gt_iff. split.
      * intros H. right. split; [symmetry; exact E|]. right. lia.
      * intros [H|[_ H]]; [rewrite E in H; exact (False_ind _ (Qlt_irrefl _ H)) | lia].
    + apply Z.eqb_neq in F. rewrite Z.compare_gt_iff. split.
      * intros H. right. split; [symmetry; exact E|]. left. lia.
      * intros [H|[_ H]]; [rewrite E in H; exact (False_ind _ (Qlt_irrefl _ H)) | lia].
  - apply Qeq_bool_neq in E.
    rewrite <- Qgt_alt. split.
    + intros H. left. apply Qnot_le_lt. intros L. apply H.
      apply Qle_lteq in L. destruct L as [L|L]; [exact L|].
      exfalso. apply E. symmetry. exact L.
    + intros [H|[H _]] G.
      * exact (Qlt_irrefl _ (Qlt_trans _ _ _ H G)).
      * apply E. symmetry. exact H.
Qed.

Lemma trainCompare_total :
  forall a b, trainCompare a b = Gt -> before trainCompare b a.
Proof.
  intros a b H. apply trainCompare_before.
  assert (N : ~ trainOrder a b)
    by (intros O; apply trainCompare_before in O; apply O; exact H).
  unfold trainOrder in *. cbv zeta in *.
  set (sa := TrainStationProfile.compositeScore (rt_profile a)) in *.
  set (sb := TrainStationProfile.compositeScore (rt_profile b)) in *.
  destruct (Qlt_le_dec sa sb) as [L|L]; [left; exact L|].
  apply Qle_lteq in L. destruct L as [L|L].
  - exfalso. apply N. left. exact L.
  - right. split; [exact L|].
    assert (N' : ~ (TrainStationProfile.lineCountEstimate (rt_profile b)
                    < TrainStationProfile.lineCountEstimate (rt_profile a)
                    \/ TrainStationProfile.lineCountEstimate (rt_profile a)
                       = TrainStationProfile.lineCountEstimate (rt_profile b)
                       /\ distanceOrMax (HubResult.distanceMeters (rt_item a))
                          <= distanceOrMax (HubResult.distanceMeters (rt_item b))))
      by (intros O; apply N; right; split; [symmetry; exact L | exact O]).
    lia.
Qed.

Lemma trainCompare_trans :
  forall a b c,
    before trainCompare a b -> before trainCompare b c ->
    before trainCompare a c.
Proof.
  intros a b c H1 H2. rewrite trainCompare_before in *.
  unfold trainOrder in *. cbv zeta in *.
  set (sa := TrainStationProfile.compositeScore (rt_profile a)) in *.
  set (sb := TrainStationProfile.compositeScore (rt_profile b)) in *.
  set (sc := TrainStationProfile.compositeScore (rt_profile c)) in *.
  destruct H1 as [H1|[E1 H1]], H2 as [H2|[E2 H2]].
  - left. eapply Qlt_trans; eassumption.
  - left. rewrite <- E2. exact H1.
  - left. rewrite E1. exact H2.
  - right. split; [rewrite E1; exact E2 | lia].
Qed.

Lemma trainOrder_scores :
  forall a b, trainOrder a b -> scoreDescending (trainCandidate a) (trainCandidate b).
Proof.
  unfold trainOrder, scoreDescending, trainCandidate. simpl.
  intros a b [H|[H _]].
  - apply Qlt_le_weak. exact H.
  - rewrite H. apply Qle_refl.
Qed.

Lemma airportOrder_scores :
  forall a b, airportOrder a b -> scoreDescending (airportCandidate a) (airportCandidate b).
Proof.
  unfold airportOrder, scoreDescending, airportCandidate. simpl.
  intros a b H. rewrite <- Zle_Qle. lia.
Qed.

Lemma trainRanked_sorted :
  forall candidates cityName highSpeedOnly,
    StronglySorted trainOrder (trainRanked candidates cityName highSpeedOnly)
    /\ Permutation (trainFiltered candidates cityName highSpeedOnly)
                   (trainRanked candidates cityName highSpeedOnly).
Proof.
  intros. unfold trainRanked. split.
  - eapply StronglySorted_impl with (R := before trainCompare).
    + intros a b H. apply trainCompare_before. exact H.
    + apply sortBy_sorted.
      * exact trainCompare_total.
      * exact trainCompare_trans.
  - apply sortBy_perm.
Qed.

Lemma airportRanked_sorted :
  forall candidates cityName,
    StronglySorted airportOrder (airportRanked candidates cityName).
Proof.
  intros. unfold airportRanked.
  eapply StronglySorted_impl with (R := before airportCompare).
  - intros a b H. apply airportCompare_before. exact H.
  - apply sortBy_sorted.
    + exact airportCompare_total.
    + exact airportCompare_trans.
Qed.

(** ** Best candidates *)

Lemma firstn_3_length : forall (A : Type) (l : list A), (length (firstn 3 l) <= 3)%nat.
Proof. intros A l. apply firstn_le_length. Qed.

Lemma pickBestTrainHub_ranked :
  forall candidates cityName highSpeedOnly r,
    pickBestTrainHub candidates cityName highSpeedOnly = Some r ->
    exists primary others,
      trainRanked candidates cityName highSpeedOnly = primary :: others
      /\ r = HubResult.withTopCandidates
               (HubResult.withTrainProfile (rt_item primary) (rt_profile primary))
               (map trainCandidate (firstn 3 (primary :: others))).
Proof.
  intros candidates cityName highSpeedOnly r H.
  unfold pickBestTrainHub in H.
  destruct candidates as [|c0 cs]; [discriminate|].
  cbv zeta in H. fold (trainRanked (c0 :: cs) cityName highSpeedOnly) in H.
  destruct (trainFiltered (c0 :: cs) cityName highSpeedOnly) as [|f fs]; [discriminate|].
  destruct (trainRanked (c0 :: cs) cityName highSpeedOnly) as [|primary others];
    [discriminate|].
  exists primary, others. split; [reflexivity|].
  injection H as <-. reflexivity.
Qed.

Lemma pickBestAirportHub_ranked :
  forall candidates cityName r,
    pickBestAirportHub candidates cityName = Some r ->
    exists primary others,
      airportRanked candidates cityName = primary :: others
      /\ r = HubResult.withTopCandidates (ra_item primary)
               (map airportCandidate (firstn 3 (primary :: others))).
Proof.
  intros candidates cityName r H.
  unfold pickBestAirportHub in H.
  destruct candidates as [|c0 cs]; [discriminate|].
  cbv zeta in H.
  destruct (airportRanked (c0 :: cs) cityName) as [|primary others]; [discriminate|].
  exists primary, others. split; [reflexivity|].
  injection H as <-. reflexivity.
Qed.

(** Each row of the airport ranking carries the airport score of its item. *)
Lemma airportRanked_scores :
  forall candidates cityName row,
    In row (airportRanked candidates cityName) ->
    ra_score row
    = score (buildAirportScore (HubResult.name (ra_item row)) cityName
                               (HubResult.distanceMeters (ra_item row))).
Proof.
  intros candidates cityName row H. unfold airportRanked in H.
  eapply Permutation_in in H; [|apply Permutation_sym, sortBy_perm].
  apply in_map_iff in H. destruct H as [item [<- _]]. reflexivity.
Qed.

(** C5, as amended.  When [pickBestTrainHub] or [pickBestAirportHub]
    returns a result, its [topCandidates] are the first three entries at
    most of the ranking, which is sorted by descending score (train ties
    by descending line count estimate and then ascending distance, airport
    ties by ascending distance, a missing distance counting as the
    largest); the first entry has the name, address and distance of the
    result.  The score of the first entry is, for a train result, the
    composite score of the result's train profile, and for an airport
    result, which gets no score field of its own, the airport score of
    the result's name and distance. *)
Theorem topCandidates_ranked :
  forall (candidates : list HubResult.t) (cityName : option jsstring),
    (forall (highSpeedOnly : bool) (r : HubResult.t),
        pickBestTrainHub candidates cityName highSpeedOnly = Some r ->
        exists (primary : RankedTrain) (others : list RankedTrain),
          let top := map trainCandidate (firstn 3 (primary :: others)) in
          trainRanked candidates cityName highSpeedOnly = primary :: others
          /\ StronglySorted trainOrder (primary :: others)
          /\ HubResult.topCandidates r = Some top
          /\ hd_error top = Some (trainCandidate primary)
          /\ (length top <= 3)%nat
          /\ StronglySorted scoreDescending top
          /\ sameIdentity (trainCandidate primary) r
          /\ ownScore r = Some (HubCandidate.score (trainCandidate primary)))
    /\ (forall r : HubResult.t,
           pickBestAirportHub candidates cityName = Some r ->
           exists (primary : RankedAirport) (others : list RankedAirport),
             let top := map airportCandidate (firstn 3 (primary :: others)) in
             airportRanked candidates cityName = primary :: others
             /\ StronglySorted airportOrder (primary :: others)
             /\ HubResult.topCandidates r = Some top
             /\ hd_error top = Some (airportCandidate primary)
             /\ (length top <= 3)%nat
             /\ StronglySorted scoreDescending top
             /\ sameIdentity (airportCandidate primary) r
             /\ HubCandidate.score (airportCandidate primary)
                = inject_Z (score (buildAirportScore (HubResult.name r) cityName
                                                     (HubResult.distanceMeters r)))
             /\ ownScore r = ownScore (ra_item primary)).
Proof.
  intros candidates cityName. split.
  - intros highSpeedOnly r H.
    destruct (pickBestTrainHub_ranked _ _ _ _ H) as [primary [others [Hr ->]]].
    exists primary, others. cbv zeta.
    pose proof (proj1 (trainRanked_sorted candidates cityName highSpeedOnly)) as S.
    rewrite Hr in S.
    split; [exact Hr|]. split; [exact S|].
    split; [reflexivity|]. split; [reflexivity|].
    split; [rewrite length_map; apply firstn_3_length|].
    split.
    + apply StronglySorted_map with (R := trainOrder); [exact trainOrder_scores|].
      apply StronglySorted_firstn. exact S.
    + split; [repeat split|reflexivity].
  - intros r H.
    destruct (pickBestAirportHub_ranked _ _ _ H) as [primary [others [Hr ->]]].
    exists primary, others. cbv zeta.
    pose proof (airportRanked_sorted candidates cityName) as S.
    rewrite Hr in S.
    split; [exact Hr|]. split; [exact S|].
    split; [reflexivity|]. split; [reflexivity|].
    split; [rewrite length_map; apply firstn_3_length|].
    split.
    + apply StronglySorted_map with (R := airportOrder); [exact airportOrder_scores|].
      apply StronglySorted_firstn. exact S.
    + split; [repeat split|]. split; [|reflexivity].
      simpl. f_equal. apply (airportRanked_scores candidates cityName).
      rewrite Hr. left. reflexivity.
Qed.

(** The ranking of a concrete train list. *)
Lemma topCandidates_ranked_witness :
  exists (primary : RankedTrain) (others : list RankedTrain),
    trainRanked [candidate (js "北京站") (Some 3000) (Some false) blankHub;
                 candidate (js "北京南站") (Some 12000) (Some true) blankHub]
                (Some (js "北京")) false = primary :: others
    /\ HubResult.name (rt_item primary) = js "北京南站".
Proof.
  destruct (proj1 (topCandidates_ranked
                     [candidate (js "北京站") (Some 3000) (Some false) blankHub;
                      candidate (js "北京南站") (Some 12000) (Some true) blankHub]
                     (Some (js "北京"))) false
              (HubResult.withTopCandidates
                 (HubResult.withTrainProfile
                    (candidate (js "北京南站") (Some 12000) (Some true) blankHub)
                    (buildTrainStationProfile (js "北京南站") (Some (js "北京"))))
                 (map trainCandidate
                      (trainRanked
                         [candidate (js "北京站") (Some 3000) (Some false) blankHub;
                          candidate (js "北京南站") (Some 12000) (Some true) blankHub]
                         (Some (js "北京")) false)))
              ltac:(vm_compute; reflexivity))
    as [primary [others [Hr [_ [_ [_ [_ [_ [Hid _]]]]]]]]].
  exists primary, others. split; [exact Hr|].
  destruct Hid as [Hn _]. simpl in Hn. exact Hn.
Defined.

(** C5 as stated fails for airports: the result of [pickBestAirportHub]
    has no score of its own for the score of its first candidate to
    equal. *)
Lemma pickBestAirportHub_result_has_no_score :
  exists (r : HubResult.t) (c : HubCandidate.t) (rest : list HubCandidate.t),
    pickBestAirportHub [candidate (js "首都国际机场") (Some 25000) None blankHub] None
    = Some r
    /\ HubResult.topCandidates r = Some (c :: rest)
    /\ HubCandidate.score c = inject_Z 77
    /\ ownScore r = None
    /\ ownScore r <> Some (HubCandidate.score c).
Proof.
  eexists. eexists. eexists.
  split; [vm_compute; reflexivity|].
  split; [reflexivity|].
  split; [reflexivity|].
  split; [reflexivity | discriminate].
Qed.

(** ** High-speed selection *)

(** C6. With [highSpeedOnly], [pickBestTrainHub] returns null when no
    candidate left by the county-level filter and the city-name reordering
    has both the high-speed signal in its profile and the high-speed query
    hit, whatever other candidates the input holds. *)
Theorem pickBestTrainHub_highSpeedOnly_null :
  forall (candidates : list HubResult.t) (cityName : option jsstring),
    (forall item : HubResult.t,
        In item (trainWorking candidates cityName) ->
        TrainStationProfile.hasHighSpeedSignal
          (buildTrainStationProfile (HubResult.name item) cityName)
        && truthy (HubResult.highSpeedQueryHit item) = false) ->
    pickBestTrainHub candidates cityName true = None.
Proof.
  intros candidates cityName H.
  unfold pickBestTrainHub.
  destruct candidates as [|c0 cs]; [reflexivity|].
  cbv zeta.
  replace (trainFiltered (c0 :: cs) cityName true) with (@nil RankedTrain);
    [reflexivity|].
  unfold trainFiltered. cbv zeta.
  induction (trainWorking (c0 :: cs) cityName) as [|item l IH]; [reflexivity|].
  cbn [map filter rt_profile rt_item]. rewrite (H item) by (left; reflexivity).
  apply IH. intros x Hx. apply H. right. exact Hx.
Qed.

(** 北京站 carries no high-speed signal and 涿州东站 was not hit by the
    high-speed query: nothing is returned although both are candidates. *)
Lemma pickBestTrainHub_highSpeedOnly_null_witness :
  pickBestTrainHub [candidate (js "北京站") (Some 3000) (Some true) blankHub;
                    candidate (js "涿州东站") (Some 45000) (Some false) blankHub]
                   (Some (js "北京")) true = None.
Proof.
  apply pickBestTrainHub_highSpeedOnly_null.
  intros item Hin. vm_compute in Hin.
  destruct Hin as [<-|[<-|[]]]; vm_compute; reflexivity.
Defined.

(** ** The Beijing scenario *)

(** C2. For the candidates 北京站 (3000 m, no high-speed query hit), 北京南站
    (12000 m, query hit) and 涿州东站 (45000 m, query hit), whatever their
    other fields, with the city name 北京 and [highSpeedOnly] set,
    [pickBestTrainHub] returns a hub, and that hub is 北京南站, not
    涿州东站: it carries the profile of 北京南站 (composite score 91.6
    against the 64.0 of 涿州东站, which follows it among the listed
    candidates). *)
Theorem pickBestTrainHub_beijing_scenario :
  forall r1 r2 r3 : HubResult.t,
    exists primary,
      pickBestTrainHub
        [candidate (js "北京站") (Some 3000) (Some false) r1;
         candidate (js "北京南站") (Some 12000) (Some true) r2;
         candidate (js "涿州东站") (Some 45000) (Some true) r3]
        (Some (js "北京")) true = Some primary
      /\ HubResult.name primary = js "北京南站"
      /\ HubResult.name primary <> js "涿州东站"
      /\ HubResult.distanceMeters primary = Some 12000
      /\ ownScore primary = Some 91.6%Q
      /\ option_map (map (fun c => (HubCandidate.name c, HubCandidate.score c)))
                    (HubResult.topCandidates primary)
         = Some [(js "北京南站", 91.6%Q); (js "涿州东站", 64.0%Q)].
Proof.
  intros r1 r2 r3. eexists. split.
  - vm_compute. reflexivity.
  - vm_compute. repeat split; try reflexivity. discriminate.
Qed.

(** ** Strings and maps *)

Lemma eqb_eq : forall a b : jsstring, JsString.eqb a b = true <-> a = b.
Proof.
  induction a as [|x a IH]; intros [|y b]; simpl; split; intros H;
    try reflexivity; try discriminate.
  - apply andb_true_iff in H. destruct H as [H1 H2].
    apply N.eqb_eq in H1. apply IH in H2. subst. reflexivity.
  - injection H as -> ->. rewrite N.eqb_refl. simpl. apply IH. reflexivity.
Qed.

Lemma eqb_refl : forall a : jsstring, JsString.eqb a a = true.
Proof. intros a. apply eqb_eq. reflexivity. Qed.

Lemma eqb_neq : forall a b : jsstring, JsString.eqb a b = false <-> a <> b.
Proof.
  intros a b. split.
  - intros H E. apply eqb_eq in E. rewrite E in H. discriminate.
  - intros H. destruct (JsString.eqb a b) eqn:E; [|reflexivity].
    apply eqb_eq in E. contradiction.
Qed.

Section MapFacts.
Context {V : Type}.
Implicit Types (m : list (jsstring * V)) (k : jsstring) (v : V).

Lemma mapGet_Some_In : forall m k v, mapGet k m = Some v -> In (k, v) m.
Proof.
  induction m as [|[k0 v0] m IH]; intros k v H; simpl in *; [discriminate|].
  destruct (JsString.eqb k0 k) eqn:E.
  - apply eqb_eq in E. injection H as <-. subst. left. reflexivity.
  - right. apply IH. exact H.
Qed.

Lemma mapGet_None_iff : forall m k, mapGet k m = None <-> ~ In k (map fst m).
Proof.
  induction m as [|[k0 v0] m IH]; intros k; simpl.
  - split; [intros _ []|reflexivity].
  - destruct (JsString.eqb k0 k) eqn:E.
    + apply eqb_eq in E. split; [discriminate|]. intros H. exfalso. apply H. left. exact E.
    + apply eqb_neq in E. rewrite IH. split.
      * intros H [G|G]; [exact (E G) | exact (H G)].
      * intros H G. apply H. right. exact G.
Qed.

Lemma In_mapGet :
  forall m k v, NoDup (map fst m) -> In (k, v) m -> mapGet k m = Some v.
Proof.
  induction m as [|[k0 v0] m IH]; intros k v ND H; simpl in *; [destruct H|].
  inversion ND as [|? ? Hnotin ND']; subst.
  destruct H as [H|H].
  - injection H as -> ->. rewrite eqb_refl. reflexivity.
  - destruct (JsString.eqb k0 k) eqn:E.
    + apply eqb_eq in E. subst. exfalso. apply Hnotin.
      apply in_map_iff. exists (k, v). split; [reflexivity | exact H].
    + apply IH; assumption.
Qed.

Lemma mapSet_keys_present :
  forall m k v, In k (map fst m) -> map fst (mapSet k v m) = map fst m.
Proof.
  induction m as [|[k0 v0] m IH]; intros k v H; simpl in *; [destruct H|].
  destruct (JsString.eqb k0 k) eqn:E; simpl; [reflexivity|].
  f_equal. apply IH. destruct H as [H|H]; [|exact H].
  apply eqb_neq in E. contradiction.
Qed.

Lemma mapSet_keys_absent :
  forall m k v, ~ In k (map fst m) -> map fst (mapSet k v m) = map fst m ++ [k].
Proof.
  induction m as [|[k0 v0] m IH]; intros k v H; simpl in *; [reflexivity|].
  destruct (JsString.eqb k0 k) eqn:E; simpl.
  - apply eqb_eq in E. exfalso. apply H. left. exact E.
  - f_equal. apply IH. intros G. apply H. right. exact G.
Qed.

Lemma mapSet_NoDup :
  forall m k v, NoDup (map fst m) -> NoDup (map fst (mapSet k v m)).
Proof.
  intros m k v ND. destruct (in_dec (list_eq_dec N.eq_dec) k (map fst m)) as [H|H].
  - rewrite mapSet_keys_present by exact H. exact ND.
  - rewrite mapSet_keys_absent by exact H.
    apply NoDup_rev in ND. rewrite <- (rev_involutive (map fst m ++ [k])).
    apply NoDup_rev. rewrite rev_app_distr. simpl. constructor; [|exact ND].
    intros G. apply H. apply in_rev. exact G.
Qed.

Lemma mapSet_In :
  forall m k v k' v',
    NoDup (map fst m) ->
    (In (k', v') (mapSet k v m)
     <-> (k' = k /\ v' = v) \/ (k' <> k /\ In (k', v') m)).
Proof.
  induction m as [|[k0 v0] m IH]; intros k v k' v' ND; simpl.
  - split.
    + intros [H|[]]. injection H as <- <-. left. split; reflexivity.
    + intros [[-> ->]|[_ []]]. left. reflexivity.
  - inversion ND as [|? ? Hnotin ND']; subst.
    destruct (JsString.eqb k0 k) eqn:E; simpl.
    + apply eqb_eq in E. subst k0. split.
      * intros [H|H].
        -- injection H as <- <-. left. split; reflexivity.
        -- right. split; [|right; exact H].
           intros ->. apply Hnotin. apply in_map_iff.
           exists (k, v'). split; [reflexivity | exact H].
      * intros [[-> ->]|[Hne [H|H]]].
        -- left. reflexivity.
        -- injection H as <- <-. contradiction.
        -- right. exact H.
    + apply eqb_neq in E. rewrite IH by exact ND'. split.
      * intros [H|[H|[Hne H]]].
        -- injection H as <- <-. right. split; [exact E | left; reflexivity].
        -- left. exact H.
        -- right. split; [exact Hne | right; exact H].
      * intros [H|[Hne [H|H]]].
        -- right. left. exact H.
        -- left. exact H.
        -- right. right. split; assumption.
Qed.

End MapFacts.

(** A map built by folding over a list, each element either starting the
    entry of its key or updating it: the entry of a key is the fold of the
    elements with that key, in their order. *)
Section KeyedFold.
Context {A V : Type}.
Variables (key : A -> jsstring) (init : A -> V) (upd : V -> A -> V).

Lemma keyedFold_spec :
  forall l : list A,
    let m := fold_left (keyedStep key init upd) l [] in
    NoDup (map fst m)
    /\ forall k v,
        In (k, v) m
        <-> exists a rest,
              filter (fun x => JsString.eqb (key x) k) l = a :: rest
              /\ v = fold_left upd rest (init a).
Proof.
  induction l as [|a l IH] using rev_ind; cbv zeta.
  - simpl. split; [constructor|]. intros k v. split; [intros []|].
    intros [a [rest [H _]]]. discriminate.
  - rewrite fold_left_app. simpl fold_left.
    cbv zeta in IH. destruct IH as [ND IH].
    set (m := fold_left (keyedStep key init upd) l []) in *.
    assert (ND' : NoDup (map fst (keyedStep key init upd m a)))
      by (unfold keyedStep; destruct (mapGet (key a) m); apply mapSet_NoDup; exact ND).
    split; [exact ND'|].
    intros k v. rewrite filter_app. simpl filter.
    unfold keyedStep. destruct (mapGet (key a) m) as [v0|] eqn:G.
    + rewrite mapSet_In by exact ND.
      apply mapGet_Some_In in G. apply IH in G.
      destruct G as [a0 [rest0 [F0 V0]]].
      destruct (JsString.eqb (key a) k) eqn:E.
      * apply eqb_eq in E. subst k. rewrite F0. split.
        -- intros [[_ ->]|[Hne _]]; [|contradiction].
           exists a0, (rest0 ++ [a]). split; [reflexivity|].
           rewrite fold_left_app. simpl. rewrite V0. reflexivity.
        -- intros [a1 [rest1 [F1 ->]]]. left. split; [reflexivity|].
           simpl in F1. injection F1 as <- <-.
           rewrite fold_left_app. simpl. rewrite V0. reflexivity.
      * apply eqb_neq in E. rewrite app_nil_r. rewrite <- IH. split.
        -- intros [[-> _]|[_ H]]; [contradiction | exact H].
        -- intros H. right. split; [|exact H]. intros ->. apply E. reflexivity.
    + rewrite mapSet_In by exact ND.
      assert (Hno : filter (fun x => JsString.eqb (key x) (key a)) l = []).
      { destruct (filter (fun x => JsString.eqb (key x) (key a)) l) as [|a0 rest0] eqn:F;
          [reflexivity|].
        exfalso. apply mapGet_None_iff in G. apply G.
        apply in_map_iff. exists (key a, fold_left upd rest0 (init a0)).
        split; [reflexivity|]. apply IH. exists a0, rest0. split; [exact F | reflexivity]. }
      destruct (JsString.eqb (key a) k) eqn:E.
      * apply eqb_eq in E. subst k. rewrite Hno. simpl. split.
        -- intros [[_ ->]|[Hne _]]; [|contradiction].
           exists a, []. split; reflexivity.
        -- intros [a1 [rest1 [F1 ->]]]. injection F1 as <- <-.
           left. split; reflexivity.
      * apply eqb_neq in E. rewrite app_nil_r. rewrite <- IH. split.
        -- intros [[-> _]|[_ H]]; [contradiction | exact H].
        -- intros H. right. split; [|exact H]. intros ->. apply E. reflexivity.
Qed.

End KeyedFold.

(** ** Airport groups *)

Lemma sortBy_head_step :
  forall (A : Type) (cmp : A -> A -> comparison) (x : A) (l : list A),
    hd_error (sortBy cmp (x :: l))
    = match hd_error (sortBy cmp l) with
      | None => Some x
      | Some y => match cmp x y with Gt => Some y | _ => Some x end
      end.
Proof.
  intros A cmp x l. simpl. destruct (sortBy cmp l) as [|y s]; simpl; [reflexivity|].
  destruct (cmp x y); reflexivity.
Qed.

Lemma firstNearest_least :
  forall g group, firstNearest g group ->
    In g group /\ forall x, In x group -> distanceOf g <= distanceOf x.
Proof.
  intros g group [b [a [-> [Hb Ha]]]]. split.
  - apply in_or_app. right. left. reflexivity.
  - intros x Hx. apply in_app_or in Hx. destruct Hx as [Hx|[<-|Hx]].
    + specialize (Hb x Hx). lia.
    + lia.
    + apply Ha. exact Hx.
Qed.

(** The head of the stable sort by distance is the first nearest member. *)
Lemma nearestOf_firstNearest :
  forall group : list HubResult.t,
    group <> [] ->
    exists g, nearestOf group = [g] /\ firstNearest g group.
Proof.
  assert (H : forall group x,
             exists g, hd_error (sortBy distanceCompare (x :: group)) = Some g
                       /\ firstNearest g (x :: group)).
  { induction group as [|y l IH]; intros x.
    - exists x. split; [reflexivity|]. exists [], []. split; [reflexivity|].
      split; intros z [].
    - rewrite sortBy_head_step. destruct (IH y) as [g [Hg Hf]]. rewrite Hg.
      destruct (firstNearest_least _ _ Hf) as [_ Hleast].
      destruct Hf as [b [a [E [Hb Ha]]]].
      unfold distanceCompare. fold (distanceOf x). fold (distanceOf g).
      destruct (distanceOf x ?= distanceOf g) eqn:C.
      + apply Z.compare_eq in C. exists x. split; [reflexivity|].
        exists [], (y :: l). split; [reflexivity|]. split; [intros z []|].
        intros z Hz. specialize (Hleast z Hz). lia.
      + rewrite Z.compare_lt_iff in C. exists x. split; [reflexivity|].
        exists [], (y :: l). split; [reflexivity|]. split; [intros z []|].
        intros z Hz. specialize (Hleast z Hz). lia.
      + rewrite Z.compare_gt_iff in C. exists g. split; [reflexivity|].
        exists (x :: b), a. split; [rewrite E; reflexivity|]. split; [|exact Ha].
        intros z [<-|Hz]; [exact C | apply Hb; exact Hz]. }
  intros [|x group] Hne; [contradiction|].
  destruct (H group x) as [g [Hg Hf]]. exists g. split; [|exact Hf].
  unfold nearestOf. destruct (sortBy distanceCompare (x :: group)) as [|h s];
    [discriminate|]. injection Hg as ->. reflexivity.
Qed.

Lemma groupStep_keyed :
  forall grouped item,
    groupStep grouped item
    = keyedStep (fun i => canonicalAirportName (HubResult.name i))
                (fun i => [i]) (fun l i => l ++ [i]) grouped item.
Proof.
  intros grouped item. unfold groupStep, keyedStep. cbv zeta.
  destruct (mapGet _ grouped); reflexivity.
Qed.

Lemma fold_left_ext :
  forall (A B : Type) (f g : A -> B -> A) (l : list B) (a : A),
    (forall x y, f x y = g x y) -> fold_left f l a = fold_left g l a.
Proof.
  intros A B f g l. induction l as [|b l IH]; intros a H; simpl; [reflexivity|].
  rewrite H. apply IH. exact H.
Qed.

Lemma fold_left_snoc :
  forall (A : Type) (rest : list A) (a : A),
    fold_left (fun l i => l ++ [i]) rest [a] = a :: rest.
Proof.
  intros A rest. induction rest as [|b rest IH] using rev_ind; intros a; [reflexivity|].
  rewrite fold_left_app. simpl. rewrite IH. rewrite app_comm_cons. reflexivity.
Qed.

(** The groups of [pickBestAirportHub]: one per canonical name, holding the
    candidates of that name in their order. *)
Lemma airportGroups_spec :
  forall candidates : list HubResult.t,
    NoDup (map fst (airportGroups candidates))
    /\ forall key group,
        In (key, group) (airportGroups candidates)
        <-> group = filter (sameAirport key) candidates /\ group <> [].
Proof.
  intros candidates. unfold airportGroups.
  rewrite (fold_left_ext _ _ _ _ candidates [] groupStep_keyed).
  destruct (keyedFold_spec (fun i => canonicalAirportName (HubResult.name i))
                           (fun i => [i]) (fun l i => l ++ [i]) candidates) as [ND H].
  split; [exact ND|]. intros key group. rewrite H. unfold sameAirport. split.
  - intros [a [rest [F ->]]]. rewrite fold_left_snoc. split; [symmetry; exact F | discriminate].
  - intros [-> Hne].
    destruct (filter (fun x => JsString.eqb (canonicalAirportName (HubResult.name x)) key)
                     candidates) as [|a rest] eqn:F; [contradiction|].
    exists a, rest. split; [reflexivity|]. rewrite fold_left_snoc. reflexivity.
Qed.

Lemma nearestOf_member :
  forall group x, In x (nearestOf group) -> In x group.
Proof.
  intros group x H. destruct group as [|y l]; [destruct H|].
  destruct (nearestOf_firstNearest (y :: l)) as [g [Hg Hf]]; [discriminate|].
  rewrite Hg in H. destruct H as [<-|[]].
  apply (firstNearest_least _ _ Hf).
Qed.

(** Of the representatives kept, only the one of a group has its name. *)
Lemma working_of_group :
  forall (groups : list (jsstring * list HubResult.t)) (key : jsstring)
         (group : list HubResult.t),
    NoDup (map fst groups) ->
    (forall k g, In (k, g) groups -> forall x, In x g -> sameAirport k x = true) ->
    In (key, group) groups ->
    filter (sameAirport key) (flat_map nearestOf (mapValues groups)) = nearestOf group.
Proof.
  induction groups as [|[k g] groups IH]; intros key group ND Hmem Hin; [destruct Hin|].
  inversion ND as [|? ? Hnotin ND']; subst.
  unfold mapValues in *. simpl. rewrite filter_app.
  assert (Hall : forall k g, In (k, g) groups ->
                   forall x, In x g -> sameAirport k x = true)
    by (intros k' g' H; apply Hmem; right; exact H).
  destruct Hin as [Hin|Hin].
  - injection Hin as -> ->.
    assert (H1 : filter (sameAirport key) (nearestOf group) = nearestOf group).
    { apply forallb_filter_id. apply forallb_forall. intros x Hx.
      apply (Hmem key group); [left; reflexivity|]. apply nearestOf_member. exact Hx. }
    assert (H2 : filter (sameAirport key) (flat_map nearestOf (map snd groups)) = []).
    { destruct (filter (sameAirport key) (flat_map nearestOf (map snd groups)))
        as [|x rest] eqn:F; [reflexivity|]. exfalso.
      assert (Hx : In x (filter (sameAirport key) (flat_map nearestOf (map snd groups))))
        by (rewrite F; left; reflexivity).
      apply filter_In in Hx. destruct Hx as [Hx Hk].
      apply in_flat_map in Hx. destruct Hx as [g' [Hg' Hx]].
      apply in_map_iff in Hg'. destruct Hg' as [[k' g''] [E Hkg]]. simpl in E. subst g''.
      apply nearestOf_member in Hx.
      pose proof (Hall k' g' Hkg x Hx) as Hk'.
      unfold sameAirport in Hk, Hk'. apply eqb_eq in Hk. apply eqb_eq in Hk'.
      assert (Ek : k' = key) by congruence. rewrite Ek in Hkg.
      apply Hnotin. apply in_map_iff. exists (key, g'). split; [reflexivity | exact Hkg]. }
    rewrite H1, H2. apply app_nil_r.
  - assert (H1 : filter (sameAirport key) (nearestOf g) = []).
    { destruct (filter (sameAirport key) (nearestOf g)) as [|x rest] eqn:F;
        [reflexivity|]. exfalso.
      assert (Hx : In x (filter (sameAirport key) (nearestOf g)))
        by (rewrite F; left; reflexivity).
      apply filter_In in Hx. destruct Hx as [Hx Hk].
      apply nearestOf_member in Hx.
      pose proof (Hmem k g (or_introl eq_refl) x Hx) as Hk'.
      unfold sameAirport in Hk, Hk'. apply eqb_eq in Hk. apply eqb_eq in Hk'.
      apply Hnotin. apply in_map_iff. exists (key, group).
      split; [simpl; congruence | exact Hin]. }
    rewrite H1. simpl. apply IH; assumption.
Qed.

(** C8. Both terminal names of 浦东国际机场 have the canonical name
    浦东国际机场, the name cut after the first 机场.  In every candidate
    list that holds both, [pickBestAirportHub] files them in one group
    (the candidates with that canonical name), and of that group keeps,
    as the one representative it scores, the first of its nearest
    members, which is at most as far as either terminal. *)
Theorem pudong_terminals_one_group :
  canonicalAirportName (js "浦东国际机场T1航站楼") = js "浦东国际机场"
  /\ canonicalAirportName (js "浦东国际机场T2") = js "浦东国际机场"
  /\ forall (candidates : list HubResult.t) (t1 t2 : HubResult.t),
      In t1 candidates -> In t2 candidates ->
      HubResult.name t1 = js "浦东国际机场T1航站楼" ->
      HubResult.name t2 = js "浦东国际机场T2" ->
      exists (group : list HubResult.t) (representative : HubResult.t),
        mapGet (js "浦东国际机场") (airportGroups candidates) = Some group
        /\ group = filter (sameAirport (js "浦东国际机场")) candidates
        /\ In t1 group /\ In t2 group
        /\ nearestOf group = [representative]
        /\ firstNearest representative group
        /\ distanceOf representative <= distanceOf t1
        /\ distanceOf representative <= distanceOf t2
        /\ filter (sameAirport (js "浦东国际机场")) (airportWorking candidates)
           = [representative].
Proof.
  split; [vm_compute; reflexivity|]. split; [vm_compute; reflexivity|].
  intros candidates t1 t2 H1 H2 N1 N2.
  destruct (airportGroups_spec candidates) as [ND Hspec].
  set (key := js "浦东国际机场") in *.
  set (group := filter (sameAirport key) candidates).
  assert (S1 : sameAirport key t1 = true)
    by (unfold sameAirport; rewrite N1; vm_compute; reflexivity).
  assert (S2 : sameAirport key t2 = true)
    by (unfold sameAirport; rewrite N2; vm_compute; reflexivity).
  assert (G1 : In t1 group) by (apply filter_In; split; assumption).
  assert (G2 : In t2 group) by (apply filter_In; split; assumption).
  assert (Hne : group <> []) by (intros E; rewrite E in G1; destruct G1).
  assert (Hin : In (key, group) (airportGroups candidates))
    by (apply Hspec; split; [reflexivity | exact Hne]).
  destruct (nearestOf_firstNearest group Hne) as [rep [Hrep Hfirst]].
  destruct (firstNearest_least _ _ Hfirst) as [_ Hleast].
  exists group, rep.
  split; [apply In_mapGet; assumption|].
  split; [reflexivity|].
  split; [exact G1|]. split; [exact G2|].
  split; [exact Hrep|]. split; [exact Hfirst|].
  split; [apply Hleast; exact G1|]. split; [apply Hleast; exact G2|].
  rewrite <- Hrep. unfold airportWorking.
  apply working_of_group; [exact ND | | exact Hin].
  intros k g Hkg x Hx. apply Hspec in Hkg. destruct Hkg as [-> _].
  apply filter_In in Hx. apply Hx.
Qed.

(** The two terminals and another airport between them: the nearer
    terminal, T1, represents the group. *)
Lemma pudong_terminals_one_group_witness :
  exists (group : list HubResult.t) (representative : HubResult.t),
    mapGet (js "浦东国际机场")
           (airportGroups
              [candidate (js "浦东国际机场T2") (Some 41000) None blankHub;
               candidate (js "虹桥国际机场") (Some 15000) None blankHub;
               candidate (js "浦东国际机场T1航站楼") (Some 40000) None blankHub])
    = Some group
    /\ nearestOf group = [representative]
    /\ HubResult.name representative = js "浦东国际机场T1航站楼".
Proof.
  destruct (proj2 (proj2 pudong_terminals_one_group)
              [candidate (js "浦东国际机场T2") (Some 41000) None blankHub;
               candidate (js "虹桥国际机场") (Some 15000) None blankHub;
               candidate (js "浦东国际机场T1航站楼") (Some 40000) None blankHub]
              (candidate (js "浦东国际机场T1航站楼") (Some 40000) None blankHub)
              (candidate (js "浦东国际机场T2") (Some 41000) None blankHub)
              ltac:(simpl; auto) ltac:(simpl; auto) eq_refl eq_refl)
    as [group [rep [Hg [Hgroup [_ [_ [Hrep _]]]]]]].
  exists group, rep. split; [exact Hg|]. split; [exact Hrep|].
  rewrite Hgroup in Hrep. vm_compute in Hrep. injection Hrep as <-. reflexivity.
Defined.

(** ** Deduplication *)

Lemma dedupeStep_keyed :
  forall byKey item,
    dedupeStep byKey item = keyedStep hubKey (fun a => a) mergeHub byKey item.
Proof.
  intros byKey item. unfold dedupeStep, keyedStep, mergeHub, distanceOf. cbv zeta.
  destruct (mapGet (hubKey item) byKey); reflexivity.
Qed.

Lemma apartFromFlag_distance :
  forall a b, apartFromFlag a b -> distanceOf a = distanceOf b.
Proof.
  intros a b H. unfold distanceOf.
  apply (f_equal HubResult.distanceMeters) in H. simpl in H. rewrite H. reflexivity.
Qed.

Lemma apartFromFlag_key :
  forall a b, apartFromFlag a b -> hubKey a = hubKey b.
Proof.
  intros a b H.
  change (hubKey (HubResult.withHighSpeedQueryHit a false)
          = hubKey (HubResult.withHighSpeedQueryHit b false)).
  rewrite H. reflexivity.
Qed.

Lemma anyQueryHit_snoc :
  forall group item,
    anyQueryHit (group ++ [item])
    = anyQueryHit group || truthy (HubResult.highSpeedQueryHit item).
Proof.
  intros group item. unfold anyQueryHit. rewrite existsb_app. simpl.
  rewrite orb_false_r. reflexivity.
Qed.

Lemma truthy_Some : forall b : bool, truthy (Some b) = b.
Proof. intros [|]; reflexivity. Qed.

(** What the collisions of one key leave: the first of the nearest
    candidates, its flag replaced, once anything collided, by whether any
    of them was hit. *)
Lemma merge_spec :
  forall (rest : list HubResult.t) (first : HubResult.t),
    let entry := fold_left mergeHub rest first in
    exists nearest,
      firstNearest nearest (first :: rest)
      /\ apartFromFlag entry nearest
      /\ truthy (HubResult.highSpeedQueryHit entry) = anyQueryHit (first :: rest)
      /\ (rest = [] -> entry = first).
Proof.
  induction rest as [|item rest IH] using rev_ind; intros first; cbv zeta.
  - simpl. exists first. split.
    + exists [], []. split; [reflexivity|]. split; intros x [].
    + split; [reflexivity|]. split; [|reflexivity].
      unfold anyQueryHit. simpl. rewrite orb_false_r. reflexivity.
  - rewrite fold_left_app. simpl fold_left.
    destruct (IH first) as [g [Hf [Ha [Ht _]]]]. cbv zeta in *.
    set (entry := fold_left mergeHub rest first) in *.
    pose proof (apartFromFlag_distance _ _ Ha) as Hd.
    destruct (firstNearest_least _ _ Hf) as [_ Hleast].
    rewrite app_comm_cons.
    unfold mergeHub. destruct (distanceOf item <? distanceOf entry) eqn:C.
    + apply Z.ltb_lt in C. exists item. split.
      * exists (first :: rest), []. split; [reflexivity|]. split; [|intros x []].
        intros x Hx. specialize (Hleast x Hx). lia.
      * split; [reflexivity|]. split; [|intros E; destruct rest; discriminate E].
        rewrite anyQueryHit_snoc, <- Ht.
        cbn [HubResult.highSpeedQueryHit HubResult.withHighSpeedQueryHit].
        apply truthy_Some.
    + apply Z.ltb_ge in C. exists g. split.
      * destruct Hf as [b [a [E [Hb Hafter]]]].
        exists b, (a ++ [item]). split.
        -- rewrite E. rewrite <- app_assoc. reflexivity.
        -- split; [exact Hb|]. intros x Hx. apply in_app_or in Hx.
           destruct Hx as [Hx|[<-|[]]]; [apply Hafter; exact Hx | lia].
      * split; [exact Ha|]. split; [|intros E; destruct rest; discriminate E].
        rewrite anyQueryHit_snoc, <- Ht.
        cbn [HubResult.highSpeedQueryHit HubResult.withHighSpeedQueryHit].
        apply truthy_Some.
Qed.

Lemma dedupe_entries :
  forall (items : list HubResult.t),
    let byKey := fold_left dedupeStep items [] in
    NoDup (map fst byKey)
    /\ forall key entry,
        In (key, entry) byKey
        <-> exists first rest,
              filter (collides key) items = first :: rest
              /\ entry = fold_left mergeHub rest first.
Proof.
  intros items. cbv zeta.
  rewrite (fold_left_ext _ _ _ _ items [] dedupeStep_keyed).
  exact (keyedFold_spec hubKey (fun a => a) mergeHub items).
Qed.

Lemma dedupe_entry_key :
  forall items key entry,
    In (key, entry) (fold_left dedupeStep items []) -> hubKey entry = key.
Proof.
  intros items key entry H.
  apply (proj2 (dedupe_entries items)) in H.
  destruct H as [first [rest [F ->]]].
  destruct (merge_spec rest first) as [g [Hf [Ha _]]]. cbv zeta in *.
  rewrite (apartFromFlag_key _ _ Ha).
  destruct (firstNearest_least _ _ Hf) as [Hin _].
  rewrite <- F in Hin. apply filter_In in Hin. destruct Hin as [_ Hc].
  apply eqb_eq. exact Hc.
Qed.

(** C4. [dedupeHubs] splits the candidates by their key (name, latitude
    and longitude to six places): the keys of its output are those of its
    input, each once; and the entry of a key is, among the candidates with
    that key, the first of the nearest ones (a null distance counting as
    the largest), so no candidate of the key is nearer, with a query-hit
    flag that is true exactly when the flag of one of them is. *)
Theorem dedupeHubs_one_entry_per_key :
  forall items : list HubResult.t,
    let out := dedupeHubs items in
    NoDup (map hubKey out)
    /\ (forall key, In key (map hubKey out) <-> In key (map hubKey items))
    /\ forall entry,
        In entry out ->
        let group := filter (collides (hubKey entry)) items in
        exists nearest,
          firstNearest nearest group
          /\ apartFromFlag entry nearest
          /\ (forall item, In item group -> distanceOf entry <= distanceOf item)
          /\ truthy (HubResult.highSpeedQueryHit entry) = anyQueryHit group.
Proof.
  intros items. cbv zeta. unfold dedupeHubs, mapValues.
  destruct (dedupe_entries items) as [ND Hspec]. cbv zeta in ND, Hspec.
  set (byKey := fold_left dedupeStep items []) in *.
  assert (Hkeys : map hubKey (map snd byKey) = map fst byKey).
  { rewrite map_map. apply map_ext_in. intros [k v] Hin. simpl.
    apply (dedupe_entry_key items). exact Hin. }
  split; [rewrite Hkeys; exact ND|]. split.
  - intros key. rewrite Hkeys. split.
    + intros H. apply in_map_iff in H. destruct H as [[k v] [E Hin]]. simpl in E. subst k.
      apply Hspec in Hin. destruct Hin as [first [rest [F _]]].
      assert (Hf : In first (filter (collides key) items))
        by (rewrite F; left; reflexivity).
      apply filter_In in Hf. destruct Hf as [Hf Hc]. apply eqb_eq in Hc.
      apply in_map_iff. exists first. split; assumption.
    + intros H. apply in_map_iff in H. destruct H as [item [E Hin]].
      destruct (filter (collides key) items) as [|first rest] eqn:F.
      * exfalso. assert (Hi : In item (filter (collides key) items))
          by (apply filter_In; split; [exact Hin | apply eqb_eq; exact E]).
        rewrite F in Hi. destruct Hi.
      * apply in_map_iff. exists (key, fold_left mergeHub rest first).
        split; [reflexivity|]. apply Hspec. exists first, rest. split; [exact F | reflexivity].
  - intros entry Hin. apply in_map_iff in Hin. destruct Hin as [[k v] [E Hin]].
    simpl in E. subst v.
    pose proof (dedupe_entry_key items k entry Hin) as Hk. rewrite Hk.
    apply Hspec in Hin. destruct Hin as [first [rest [F ->]]]. rewrite F.
    destruct (merge_spec rest first) as [g [Hf [Ha [Ht _]]]]. cbv zeta in *.
    exists g. split; [exact Hf|]. split; [exact Ha|]. split; [|exact Ht].
    intros item Hi. rewrite (apartFromFlag_distance _ _ Ha).
    apply (firstNearest_least _ _ Hf). exact Hi.
Qed.

(** ** Location strings *)

Lemma split_nonempty :
  forall sep s, split sep s <> [].
Proof.
  intros sep s. destruct s as [|c s']; simpl.
  - discriminate.
  - destruct (c =? sep)%N; [discriminate|].
    destruct (split sep s'); discriminate.
Qed.

Lemma split_no_separator :
  forall sep s, ~ In sep s -> split sep s = [s].
Proof.
  intros sep s. induction s as [|c s' IH]; intros Hin; simpl.
  - reflexivity.
  - destruct (N.eqb_spec c sep) as [E|E].
    + exfalso. apply Hin. left. exact E.
    + rewrite IH; [reflexivity|]. intros H. apply Hin. right. exact H.
Qed.

(** C7 (as amended). [parseLocation] reads the first two comma-separated
    tokens and ignores any further ones: it returns the pair of their
    [Number] values exactly when the string has at least two tokens and
    neither of the first two converts to NaN, and null otherwise; in
    particular a string with fewer than two tokens (one without a comma)
    gives null. *)
Theorem parseLocation_first_two_tokens :
  forall location,
    (forall p,
        parseLocation location = Some p <->
        exists lng lat rest,
          tokens location = lng :: lat :: rest
          /\ isNaN (Number lng) = false
          /\ isNaN (Number lat) = false
          /\ p = {| longitude := Number lng; latitude := Number lat |})
    /\ ((length (tokens location) < 2)%nat -> parseLocation location = None)
    /\ (~ In 44%N location -> parseLocation location = None).
Proof.
  intros location.
  assert (Hshape :
    parseLocation location =
    match tokens location with
    | lng :: lat :: _ =>
      if isNaN (Number lng) || isNaN (Number lat) then None
      else Some {| longitude := Number lng; latitude := Number lat |}
    | _ => None
    end).
  { unfold parseLocation, tokens. cbv zeta.
    destruct (split 44 location) as [|lng [|lat rest]];
      cbn [nth_error NumberOf isNaN NaN].
    - reflexivity.
    - rewrite orb_true_r. reflexivity.
    - reflexivity. }
  split; [|split].
  - intros p. rewrite Hshape. split.
    + destruct (tokens location) as [|lng [|lat rest]]; try discriminate.
      destruct (isNaN (Number lng)) eqn:E1; [discriminate|].
      destruct (isNaN (Number lat)) eqn:E2; [discriminate|].
      cbn [orb]. intros H. injection H as <-.
      exists lng, lat, rest. repeat split; (assumption || reflexivity).
    + intros (lng & lat & rest & Ht & E1 & E2 & ->).
      rewrite Ht, E1, E2. reflexivity.
  - intros Hlen. rewrite Hshape.
    destruct (tokens location) as [|lng [|lat rest]]; try reflexivity.
    cbn [length] in Hlen. lia.
  - intros Hno. rewrite Hshape. unfold tokens.
    rewrite (split_no_separator _ _ Hno). reflexivity.
Qed.

Lemma parseLocation_first_two_tokens_witness :
  parseLocation (js "116.397428") = None
  /\ parseLocation (js "116.397428,39.90923")
     = Some {| longitude := lit "116.397428"; latitude := lit "39.90923" |}.
Proof.
  split.
  - apply (proj1 (proj2 (parseLocation_first_two_tokens (js "116.397428")))).
    vm_compute. lia.
  - apply (proj1 (parseLocation_first_two_tokens (js "116.397428,39.90923"))).
    exists (js "116.397428"), (js "39.90923"), [].
    repeat split; vm_compute; reflexivity.
Defined.

(** Against C7 as stated: a string of three finite numeric tokens is
    accepted (its third token is dropped), and so are a token that is
    not finite and an empty second token (which converts to 0). *)
Lemma parseLocation_accepts_other_shapes :
  tokens (js "116.4,39.9,7") = [js "116.4"; js "39.9"; js "7"]
  /\ parseLocation (js "116.4,39.9,7")
     = Some {| longitude := lit "116.4"; latitude := lit "39.9" |}
  /\ parseLocation (js "Infinity,39.9")
     = Some {| longitude := S754_infinity false; latitude := lit "39.9" |}
  /\ isFiniteNumber (S754_infinity false) = false
  /\ tokens (js "116.4,") = [js "116.4"; []]
  /\ parseLocation (js "116.4,")
     = Some {| longitude := lit "116.4"; latitude := ofZ 0 |}.
Proof.
  vm_compute. repeat split; reflexivity.
Qed.

(** ** Provider failures *)

Lemma textSearchLoop_throws_only_other :
  forall net cache cacheKey limit keywordVariants callIndex poiList e n,
    InputTips.textSearchLoop net cache cacheKey limit keywordVariants
                             callIndex poiList = (InputTips.Thrown_ e, n) ->
    e = Provider.OtherError.
Proof.
  intros net cache cacheKey limit keywordVariants.
  induction keywordVariants as [|k rest IH]; intros callIndex poiList e n H.
  - discriminate H.
  - cbn [InputTips.textSearchLoop] in H.
    destruct (net callIndex) as [|ok st body]; [congruence|].
    destruct ok; cbn [negb] in H; [|eapply IH; exact H].
    destruct body as [json|]; [|congruence].
    destruct (Provider.statusIsOne json).
    + destruct (limit <=? _); [discriminate H|eapply IH; exact H].
    + destruct (match Provider.infocode json with
                | Some c => JsString.eqb c (js "10021")
                | None => false
                end).
      * destruct (InputTips.cachedNonEmpty cache cacheKey); [discriminate H|].
        destruct (limit <=? _); [discriminate H|eapply IH; exact H].
      * destruct (limit <=? _); [discriminate H|eapply IH; exact H].
Qed.

Lemma textSearchLoop_all_failed :
  forall net cache cacheKey limit,
    InputTips.cachedNonEmpty cache cacheKey = None ->
    (forall n, failedResponse (net n) = true) ->
    forall keywordVariants callIndex poiList,
      exists n,
        InputTips.textSearchLoop net cache cacheKey limit keywordVariants
                                 callIndex poiList = (InputTips.Finished poiList, n).
Proof.
  intros net cache cacheKey limit Hcache Hfail keywordVariants.
  induction keywordVariants as [|k rest IH]; intros callIndex poiList.
  - exists callIndex. reflexivity.
  - cbn [InputTips.textSearchLoop].
    specialize (Hfail callIndex). unfold failedResponse in Hfail.
    destruct (net callIndex) as [|ok st body]; [discriminate Hfail|].
    destruct ok; cbn [negb]; [|apply IH].
    destruct body as [json|]; [|discriminate Hfail].
    destruct (Provider.statusIsOne json); [discriminate Hfail|].
    rewrite Hcache.
    destruct (match Provider.infocode json with
              | Some c => JsString.eqb c (js "10021")
              | None => false
              end);
      (destruct (limit <=? _); [eexists; reflexivity|apply IH]).
Qed.

Lemma fetchTips_failed :
  forall r, failedResponse r = true -> InputTips.fetchTips r = [].
Proof.
  intros [|ok st body] H; [reflexivity|].
  unfold failedResponse in H. unfold InputTips.fetchTips.
  destruct ok; [|reflexivity].
  destruct body as [json|]; [|reflexivity].
  destruct (Provider.statusIsOne json); [discriminate H|reflexivity].
Qed.

(** C9 (as amended). What a caller sees of a failed request.  The hub
    fetcher [fetchAroundPois] throws an [AmapApiError] on both kinds of
    failure, but only the one for a provider non-success status carries
    the provider's infocode; the one for a response that is not [ok]
    carries no code.  The address-suggestion resolver never throws an
    [AmapApiError] that carries a code: the only one it throws is the
    code-less "no candidates" error, and that is what the caller gets when
    every request of the call fails (and nothing is cached). *)
Theorem provider_failures_as_seen_by_callers :
  (forall httpStatus body,
      fetchAroundPois (Provider.Response false httpStatus body)
      = Provider.Threw
          (Provider.AmapApiError (Provider.requestFailedMessage httpStatus) None))
  /\ (forall httpStatus json,
         Provider.statusIsOne json = false ->
         fetchAroundPois (Provider.Response true httpStatus (Some json))
         = Provider.Threw
             (Provider.AmapApiError (Provider.apiErrorMessage json)
                                    (Provider.infocode json)))
  /\ (forall net cache keyword city limit message code,
         fst (InputTips.fetchAddressSuggestions net cache keyword city limit)
         = Provider.Threw (Provider.AmapApiError message code) ->
         message = InputTips.noCandidatesMessage /\ code = None)
  /\ (forall net cache keyword city limit,
         nonEmpty (trim keyword) = true ->
         InputTips.cachedNonEmpty cache (suggestionCacheKey keyword city limit)
         = None ->
         (forall n, failedResponse (net n) = true) ->
         InputTips.fetchAddressSuggestions net cache keyword city limit
         = (Provider.Threw
              (Provider.AmapApiError InputTips.noCandidatesMessage None),
            cache)).
Proof.
  split; [|split; [|split]].
  - intros httpStatus body. reflexivity.
  - intros httpStatus json H. unfold fetchAroundPois. cbn [negb].
    rewrite H. reflexivity.
  - intros net cache keyword city limit message code.
    unfold InputTips.fetchAddressSuggestions. cbv zeta.
    destruct (negb (nonEmpty (trim keyword))); [discriminate|].
    destruct (InputTips.cachedNonEmpty cache _); [discriminate|].
    destruct (InputTips.textSearchLoop _ _ _ _ _ _ _) as [[poiList|quick|e] n] eqn:E.
    + destruct (InputTips.dedupeLoop _ _ _ _); cbn [fst]; [|discriminate].
      intros H. injection H as <- <-. split; reflexivity.
    + discriminate.
    + apply textSearchLoop_throws_only_other in E. subst e. discriminate.
  - intros net cache keyword city limit Hkw Hcache Hfail.
    unfold suggestionCacheKey in Hcache.
    unfold InputTips.fetchAddressSuggestions. cbv zeta.
    rewrite Hkw. cbn [negb]. rewrite Hcache.
    destruct (textSearchLoop_all_failed net cache _ (Provider.orElse limit 8)
                Hcache Hfail
                (if test InputTips.HOTEL_BRAND_REGEX (trim keyword)
                 then [trim keyword; trim keyword ++ js "酒店"]
                 else [trim keyword]) 0%nat []) as [n E].
    rewrite E. rewrite (fetchTips_failed _ (Hfail n)). reflexivity.
Qed.

Lemma provider_failures_as_seen_by_callers_witness :
  fetchAroundPois (providerErrorResponse "10021" "CUQPS_HAS_EXCEEDED_THE_LIMIT")
  = Provider.Threw
      (Provider.AmapApiError
         (js "高德接口错误: CUQPS_HAS_EXCEEDED_THE_LIMIT (10021)")
         (Some (js "10021")))
  /\ InputTips.fetchAddressSuggestions
       (fun _ => providerErrorResponse "10021" "CUQPS_HAS_EXCEEDED_THE_LIMIT")
       [] (js "北京南站") None None
     = (Provider.Threw
          (Provider.AmapApiError InputTips.noCandidatesMessage None), []).
Proof.
  split.
  - apply (proj1 (proj2 provider_failures_as_seen_by_callers) 200).
    reflexivity.
  - apply (proj2 (proj2 (proj2 provider_failures_as_seen_by_callers))).
    + reflexivity.
    + reflexivity.
    + intros n. reflexivity.
Defined.

(** Against C9 as stated: a text search that fails (a response that is
    not [ok], or a provider error status) is absorbed by
    [fetchAddressSuggestions], which goes on to the input tips and returns
    their suggestions; and the error of [fetchAroundPois] for a response
    that is not [ok] carries no infocode. *)
Lemma fetchAddressSuggestions_absorbs_failures :
  fst (InputTips.fetchAddressSuggestions
         (fun n => match n with
                   | O => Provider.Response false 500 None
                   | _ => exampleTipsResponse
                   end)
         [] (js "北京南站") None None)
  = Provider.Returned [exampleSuggestion]
  /\ fst (InputTips.fetchAddressSuggestions
            (fun n => match n with
                      | O => providerErrorResponse "10003" "DAILY_QUERY_OVER_LIMIT"
                      | _ => exampleTipsResponse
                      end)
            [] (js "北京南站") None None)
     = Provider.Returned [exampleSuggestion]
  /\ fetchAroundPois (Provider.Response false 503 None)
     = Provider.Threw (Provider.AmapApiError (js "高德请求失败: 503") None).
Proof.
  split; [|split]; vm_compute; reflexivity.
Qed.
